(** * The real-time fraud monitor of frontend/components/Login.tsx

    [RealtimeMonitorModal] opens a WebSocket and, for every inbound frame,
    runs [ws.onmessage]: it parses the frame, shows a dialog for an
    ["error"] frame, and for a ["transaction"] frame prepends the event to a
    window of 50, updates four counters and, when the event is alerted,
    prepends it to a window of 20 and plays a sound.

    The component state ([useState]) is threaded explicitly; what the
    handler does to the outside (dialog, sound) is returned as a list of
    effects; a JavaScript exception is a [Throw] result.

    The other components of the file follow: the time slider of
    [GraphModal], the request handlers and buttons of [Dashboard], the
    [Login] form, and with it the effect of [LoginPage]
    (frontend/pages/login1.tsx), which reads what [Login] stores. An
    [async] handler is cut at its [await] into what runs before the request
    leaves and what runs once it has settled. *)

From Stdlib Require Import String.
From Stdlib Require Import ZArith QArith Bool Arith Lia List FinFun.
Import ListNotations.
Local Open Scope string_scope.
Local Open Scope list_scope.
Local Open Scope Z_scope.
Set Warnings "-register-all".

(** ** Values produced by [JSON.parse] *)

Module Json.

(** A JavaScript number as [JSON.parse] can produce it: a finite value
    (every finite double is a rational; [-0] is identified with [0], from
    which [===] and truthiness do not tell it apart) or an infinity (the
    literal [1e999] parses to [Infinity]). *)
Inductive jsnum : Type :=
| Fin (q : Q)
| Inf (negative : bool).

Inductive jsval : Type :=
| JNull
| JBool (b : bool)
| JNum (n : jsnum)
| JStr (s : string)
| JArr (items : list jsval)
| JObj (props : list (string * jsval)).

(** What a property read yields: [None] is [undefined]. *)
Definition jsprop : Type := option jsval.

Inductive exn : Type :=
| SyntaxError
| TypeError.

Inductive result (A : Type) : Type :=
| Ok (a : A)
| Throw (e : exn).
Arguments Ok {A} a.
Arguments Throw {A} e.

Definition bind {A B : Type} (r : result A) (k : A -> result B) : result B :=
  match r with
  | Ok a => k a
  | Throw e => Throw e
  end.

(** The own properties of a parsed object, one entry per name. *)
Fixpoint lookup (k : string) (props : list (string * jsval)) : jsprop :=
  match props with
  | [] => None
  | (k', v) :: rest => if String.eqb k' k then Some v else lookup k rest
  end.

(** [data.k] once [data] is known not to be [null]: an own property of an
    object, [undefined] on anything else (none of the names read by the
    monitor, [type], [message], [is_alert], [fraud_actual], is a property
    of a boolean, number, string or array). *)
Definition prop (data : jsval) (k : string) : jsprop :=
  match data with
  | JObj props => lookup k props
  | _ => None
  end.

(** [data.k] in general: reading a property of [null] raises [TypeError]. *)
Definition member (data : jsval) (k : string) : result jsprop :=
  match data with
  | JNull => Throw TypeError
  | _ => Ok (prop data k)
  end.

(** ToBoolean, as applied by [x ? a : b], [x && y] and [if (x)]. *)
Definition truthy (v : jsprop) : bool :=
  match v with
  | None => false
  | Some JNull => false
  | Some (JBool b) => b
  | Some (JNum (Fin q)) => negb (Qeq_bool q 0)
  | Some (JNum (Inf _)) => true
  | Some (JStr s) => negb (String.eqb s EmptyString)
  | Some (JArr _) => true
  | Some (JObj _) => true
  end.

(** [v === 'lit'] for a string literal. *)
Definition strict_eq_str (v : jsprop) (lit : string) : bool :=
  match v with
  | Some (JStr s) => String.eqb s lit
  | _ => false
  end.

(** [v === n] for an integer literal. *)
Definition strict_eq_num (v : jsprop) (n : Z) : bool :=
  match v with
  | Some (JNum (Fin q)) => Qeq_bool q (inject_Z n)
  | _ => false
  end.

End Json.
Import Json.

Notation "x <- r ;; k" := (bind r (fun x => k))
  (at level 61, r at next level, right associativity).

(** ** The bounded windows

    [[data, ...prev].slice(0, cap)]: the new item goes to the front and the
    array is cut to its first [cap] elements (lines 480 and 487, with
    [cap = 50] and [cap = 20]). *)

Module WindowBuffer.

Definition push {A : Type} (cap : nat) (item : A) (prev : list A) : list A :=
  firstn cap (item :: prev).

(** A window after a sequence of pushes, oldest push first. *)
Definition pushes {A : Type} (cap : nat) (items : list A) : list A :=
  fold_left (fun prev item => push cap item prev) items [].

End WindowBuffer.
Import WindowBuffer.

(** ** The counters *)

Module Stats.

(** The [stats] object. The counters are JavaScript numbers holding
    non-negative integers; [+] on them is the exact integer sum (below
    2^53, far beyond any number of frames a session receives). *)
Record t : Type := mk {
  total : Z;
  alerts : Z;
  truePositives : Z;
  falsePositives : Z
}.

Definition zero : t := mk 0 0 0 0.

(** Componentwise order. *)
Definition le (a b : t) : Prop :=
  total a <= total b /\ alerts a <= alerts b /\
  truePositives a <= truePositives b /\ falsePositives a <= falsePositives b.

End Stats.

(** ** The monitor *)

Module Monitor.

(** The WebSocket's [readyState] (closing and closed are not told apart). *)
Inductive readyState : Type :=
| CONNECTING
| OPEN
| CLOSED.

(** The state of one mounted [RealtimeMonitorModal]: the four [useState]
    cells, whether [audioRef.current] holds a player, and the socket. *)
Record session : Type := mkSession {
  transactions : list jsval;
  alerts : list jsval;
  isConnected : bool;
  stats : Stats.t;
  audioRef : bool;
  ws : readyState
}.

Inductive effect : Type :=
| WindowAlert (prefix : string) (operand : jsprop)
    (** [alert(prefix + operand)], a blocking dialog *)
| AudioPlay
    (** [audioRef.current.play()], a rejection being swallowed *)
| Uncaught (e : exn)
    (** an exception that left the handler, reported by the event loop *).

(** The text of the dialog when the operand is a string. *)
Definition alert_text (fx : effect) : option string :=
  match fx with
  | WindowAlert prefix (Some (JStr m)) => Some (prefix ++ m)%string
  | _ => None
  end.

(** An inbound frame, identified with what [JSON.parse] makes of its
    body: a value, or no value at all. *)
Inductive frame : Type :=
| Unparsable
| Parsed (data : jsval).

Definition JSON_parse (f : frame) : result jsval :=
  match f with
  | Unparsable => Throw SyntaxError
  | Parsed data => Ok data
  end.

Definition b2z (b : bool) : Z := if b then 1 else 0.

Definition is_alert (data : jsval) : bool := truthy (prop data "is_alert").

Definition fraud_actual_is (data : jsval) (n : Z) : bool :=
  strict_eq_num (prop data "fraud_actual") n.

(** The updater passed to [setStats] (lines 481-485). *)
Definition setStats_updater (data : jsval) (prev : Stats.t) : Stats.t :=
  Stats.mk
    (Stats.total prev + 1)
    (Stats.alerts prev + b2z (is_alert data))
    (Stats.truePositives prev + b2z (is_alert data && fraud_actual_is data 1))
    (Stats.falsePositives prev + b2z (is_alert data && fraud_actual_is data 0)).

Definition setTransactions (f : list jsval -> list jsval) (s : session) : session :=
  mkSession (f (transactions s)) (alerts s) (isConnected s) (stats s) (audioRef s) (ws s).

Definition setAlerts (f : list jsval -> list jsval) (s : session) : session :=
  mkSession (transactions s) (f (alerts s)) (isConnected s) (stats s) (audioRef s) (ws s).

Definition setStats (f : Stats.t -> Stats.t) (s : session) : session :=
  mkSession (transactions s) (alerts s) (isConnected s) (f (stats s)) (audioRef s) (ws s).

Definition setIsConnected (b : bool) (s : session) : session :=
  mkSession (transactions s) (alerts s) b (stats s) (audioRef s) (ws s).

Definition set_ws (r : readyState) (s : session) : session :=
  mkSession (transactions s) (alerts s) (isConnected s) (stats s) (audioRef s) r.

(** The body of [if (data.type === 'transaction')] (lines 480-489). *)
Definition on_transaction (s : session) (data : jsval) : session * list effect :=
  let s1 := setTransactions (push 50 data) s in
  let s2 := setStats (setStats_updater data) s1 in
  if is_alert data then
    let s3 := setAlerts (push 20 data) s2 in
    (s3, if audioRef s3 then [AudioPlay] else [])
  else (s2, []).

(** [ws.onmessage] (lines 476-491). *)
Definition onmessage (s : session) (f : frame) : result (session * list effect) :=
  data <- JSON_parse f ;;
  ty <- member data "type" ;;
  if strict_eq_str ty "error" then
    message <- member data "message" ;;
    Ok (s, [WindowAlert "Backend Error: " message])
  else
    ty' <- member data "type" ;;
    if strict_eq_str ty' "transaction" then Ok (on_transaction s data)
    else Ok (s, []).

(** The event loop around the handler: an exception that leaves it is
    reported, and whatever the handler had not yet done stays undone. The
    handler raises only before its first state update. *)
Definition deliver (s : session) (f : frame) : session * list effect :=
  match onmessage s f with
  | Ok r => r
  | Throw e => (s, [Uncaught e])
  end.

(** The component right after its effect has run (lines 463-474): empty
    windows, zeroed counters, not connected, a socket that is connecting;
    the player exists when [window] does. *)
Definition mount (has_window : bool) : session :=
  mkSession [] [] false Stats.zero has_window CONNECTING.

(** What can happen to the socket: it opens, a frame arrives, it is
    closed (the cleanup's [ws.close()], line 493, or the transport
    dropping). *)
Inductive event : Type :=
| EvOpen
| EvMessage (f : frame)
| EvClose.

(** Modelled from the spec: the WebSocket transport, which is the
    browser's and not in the source. Section 4.1 of the specification:
    the states are [Connecting -> Connected -> Disconnected], [close()]
    stops further [onMessage] invocations and is idempotent. The handlers
    that run on these events are the source's: [onopen] sets the
    indicator (line 474), [onmessage] is the handler above, [onclose]
    clears the indicator (line 492). *)
Definition step (s : session) (ev : event) : session * list effect :=
  match ev, ws s with
  | EvOpen, CONNECTING => (setIsConnected true (set_ws OPEN s), [])
  | EvOpen, _ => (s, [])
  | EvMessage f, OPEN => deliver s f
  | EvMessage _, _ => (s, [])
  | EvClose, CLOSED => (s, [])
  | EvClose, _ => (setIsConnected false (set_ws CLOSED s), [])
  end.

Definition close (s : session) : session := fst (step s EvClose).

Definition run (s : session) (evs : list event) : session :=
  fold_left (fun st ev => fst (step st ev)) evs s.

(** A session whose socket has opened. *)
Definition connected (has_window : bool) : session :=
  fst (step (mount has_window) EvOpen).

(** A frame that carries [data] with [data.type === 'transaction']. *)
Definition is_transaction (data : jsval) : bool :=
  strict_eq_str (prop data "type") "transaction".

Definition is_error (data : jsval) : bool :=
  strict_eq_str (prop data "type") "error".

(** Feeding a list of parsed values to an open session. *)
Definition feed (s : session) (datas : list jsval) : session :=
  run s (map (fun d => EvMessage (Parsed d)) datas).

End Monitor.
Import Monitor.

(** ** The feed as it is rendered (lines 510-519) *)

Module MonitorView.

(** [alerts.length === 0 ? <p>No alerts yet...</p> : ...] *)
Definition no_alerts_yet (s : session) : bool :=
  Nat.eqb (length (alerts s)) 0.

(** [alert.fraud_actual === 1 && <div>CONFIRMED FRAUD</div>] (line 517). *)
Definition confirmed_fraud (alert : jsval) : bool := fraud_actual_is alert 1.

(** How many entries of the alert feed carry the badge. *)
Definition confirmed_badges (s : session) : Z :=
  Z.of_nat (length (filter confirmed_fraud (alerts s))).

End MonitorView.

(** ** More of JavaScript, for the other components *)

Module Js.

(** [!v] *)
Definition falsy (v : jsval) : bool := negb (truthy (Some v)).

(** [v || 'lit'] *)
Definition or_else (v : jsprop) (lit : string) : jsval :=
  match v with
  | Some x => if truthy v then x else JStr lit
  | None => JStr lit
  end.

(** Whether [String(v)] is the empty string: an empty string, or an array
    that is empty or holds one element which is [null] or again of empty
    text (an array is joined with commas, [null] contributing nothing). *)
Fixpoint to_string_empty (v : jsval) : bool :=
  match v with
  | JStr s => String.eqb s EmptyString
  | JArr [] => true
  | JArr [JNull] => true
  | JArr [x] => to_string_empty x
  | _ => false
  end.

(** [JSON.parse(JSON.stringify(v))] for a value that came out of
    [JSON.parse]: the same value, except that an infinity is written as
    [null]. *)
Fixpoint reparse (v : jsval) : jsval :=
  match v with
  | JNum (Inf _) => JNull
  | JArr items => JArr (map reparse items)
  | JObj props => JObj (map (fun kv => (fst kv, reparse (snd kv))) props)
  | _ => v
  end.

End Js.
Import Js.

(** ** The time slider of the graph (lines 562-574) *)

Module Graph.

(** [GraphNode], without [features], which the filter does not read. *)
Record GraphNode : Type := mkNode {
  id : Z;
  is_fraud_actual : Z;
  is_fraud_predicted : Z;
  is_in_ring : bool
}.

(** An end of a link: the node id the backend sent, or the node object the
    force graph has put in its place (it rewrites the links it is given,
    and the links of [fullGraphData] are the very objects it was given). *)
Inductive endpoint : Type :=
| Id (n : Z)
| NodeRef (node : GraphNode).

(** [GraphLink]; [time_step] is optional ([None]: absent). *)
Record GraphLink : Type := mkLink {
  source : endpoint;
  target : endpoint;
  time_step : option Q
}.

Record GraphData : Type := mkGraph {
  nodes : list GraphNode;
  links : list GraphLink
}.

(** [typeof e === 'number' ? e : e.id] *)
Definition endpoint_id (e : endpoint) : Z :=
  match e with
  | Id n => n
  | NodeRef node => id node
  end.

(** [link.time_step || 0] *)
Definition time_or_0 (link : GraphLink) : Q :=
  match time_step link with
  | Some q => if Qeq_bool q 0 then 0%Q else q
  | None => 0%Q
  end.

Definition shown (timeStep : Q) (link : GraphLink) : bool :=
  Qle_bool (time_or_0 link) timeStep.

(** The set [visibleNodeIds] after the [forEach], as the list of what was
    added to it. *)
Definition visibleNodeIds (filteredLinks : list GraphLink) : list Z :=
  flat_map (fun link => [endpoint_id (source link); endpoint_id (target link)])
           filteredLinks.

(** [visibleNodeIds.has(n)] *)
Definition has (ids : list Z) (n : Z) : bool := existsb (Z.eqb n) ids.

(** The body of the effect, for a loaded graph. *)
Definition filter_graph (fullGraphData : GraphData) (timeStep : Q) : GraphData :=
  let filteredLinks := filter (shown timeStep) (links fullGraphData) in
  let ids := visibleNodeIds filteredLinks in
  let filteredNodes := filter (fun node => has ids (id node)) (nodes fullGraphData) in
  mkGraph filteredNodes filteredLinks.

(** The effect on [graphData]: nothing until the graph is loaded. *)
Definition on_timeStep (fullGraphData : option GraphData) (timeStep : Q)
    (graphData : option GraphData) : option GraphData :=
  match fullGraphData with
  | Some full => Some (filter_graph full timeStep)
  | None => graphData
  end.

(** Whether a link touches a node. *)
Definition touches (link : GraphLink) (node : GraphNode) : Prop :=
  endpoint_id (source link) = id node \/ endpoint_id (target link) = id node.

End Graph.

(** ** Requests of the dashboard (lines 715-769, 863, 890-902) *)

Module Dashboard.

(** The cells of [Dashboard] that its handlers and buttons use; [null] is
    [JNull]. *)
Record state : Type := mkState {
  datasetStats : jsval;
  modelMetrics : jsval;
  dataset : jsval;
  isLoadingData : bool;
  isLoadingModel : bool;
  isLoadingViewData : bool;
  error : jsval;
  showToast : bool;
  showDatasetModal : bool
}.

(** The rejection of an axios request: [err.response] is absent when no
    answer came, and otherwise holds the answer's [data]. *)
Record AxiosError : Type := mkError {
  response : option jsprop
}.

Inductive outcome : Type :=
| Resolved (data : jsval)
| Rejected (err : AxiosError).

Inductive effect : Type :=
| Post (path : string)
| Get (path : string)
| ConsoleError.

(** [err.response?.data?.detail] *)
Definition detail (err : AxiosError) : jsprop :=
  match response err with
  | None => None
  | Some None => None
  | Some (Some JNull) => None
  | Some (Some data) => prop data "detail"
  end.

Definition setIsLoadingData (b : bool) (s : state) : state :=
  mkState (datasetStats s) (modelMetrics s) (dataset s) b (isLoadingModel s)
          (isLoadingViewData s) (error s) (showToast s) (showDatasetModal s).

Definition setIsLoadingModel (b : bool) (s : state) : state :=
  mkState (datasetStats s) (modelMetrics s) (dataset s) (isLoadingData s) b
          (isLoadingViewData s) (error s) (showToast s) (showDatasetModal s).

Definition setIsLoadingViewData (b : bool) (s : state) : state :=
  mkState (datasetStats s) (modelMetrics s) (dataset s) (isLoadingData s)
          (isLoadingModel s) b (error s) (showToast s) (showDatasetModal s).

Definition setDatasetStats (v : jsval) (s : state) : state :=
  mkState v (modelMetrics s) (dataset s) (isLoadingData s) (isLoadingModel s)
          (isLoadingViewData s) (error s) (showToast s) (showDatasetModal s).

Definition setModelMetrics (v : jsval) (s : state) : state :=
  mkState (datasetStats s) v (dataset s) (isLoadingData s) (isLoadingModel s)
          (isLoadingViewData s) (error s) (showToast s) (showDatasetModal s).

Definition setDataset (v : jsval) (s : state) : state :=
  mkState (datasetStats s) (modelMetrics s) v (isLoadingData s)
          (isLoadingModel s) (isLoadingViewData s) (error s) (showToast s)
          (showDatasetModal s).

Definition setError (v : jsval) (s : state) : state :=
  mkState (datasetStats s) (modelMetrics s) (dataset s) (isLoadingData s)
          (isLoadingModel s) (isLoadingViewData s) v (showToast s)
          (showDatasetModal s).

Definition setShowToast (b : bool) (s : state) : state :=
  mkState (datasetStats s) (modelMetrics s) (dataset s) (isLoadingData s)
          (isLoadingModel s) (isLoadingViewData s) (error s) b
          (showDatasetModal s).

Definition setShowDatasetModal (b : bool) (s : state) : state :=
  mkState (datasetStats s) (modelMetrics s) (dataset s) (isLoadingData s)
          (isLoadingModel s) (isLoadingViewData s) (error s) (showToast s) b.

(** [useState] initial values (lines 717-727). *)
Definition initial : state :=
  mkState JNull JNull JNull false false false JNull false false.

(** Each handler is cut at its [await]: what it does before the request
    leaves ([_start], with the request it sends, if any) and what it does
    once the request has settled ([_settle], on the state of that moment). *)

(** [handleGenerateData] (lines 746-752). *)
Definition handleGenerateData_start (s : state) : state * list effect :=
  (setError JNull (setDataset JNull (setModelMetrics JNull
     (setIsLoadingData true s))),
   [Post "/generate_dataset"]).

Definition handleGenerateData_settle (o : outcome) (s : state)
  : state * list effect :=
  let '(s1, fx) :=
    match o with
    | Resolved data => (setShowToast true (setDatasetStats data s), [])
    | Rejected _ =>
        (setError (JStr "Failed to generate dataset. Is the backend running?") s,
         [ConsoleError])
    end in
  (setIsLoadingData false s1, fx).

(** [handleTrainModel] (lines 754-761). *)
Definition handleTrainModel_start (s : state) : state * list effect :=
  if falsy (datasetStats s)
  then (setError (JStr "Please generate a dataset first.") s, [])
  else (setError JNull (setIsLoadingModel true s), [Post "/train_gnn"]).

Definition handleTrainModel_settle (o : outcome) (s : state)
  : state * list effect :=
  let '(s1, fx) :=
    match o with
    | Resolved data => (setModelMetrics data s, [])
    | Rejected err =>
        (setError (or_else (detail err) "Failed to train model.") s,
         [ConsoleError])
    end in
  (setIsLoadingModel false s1, fx).

(** [handleViewData] (lines 763-769). *)
Definition handleViewData_start (s : state) : state * list effect :=
  (setError JNull (setIsLoadingViewData true s), [Get "/get_dataset"]).

Definition handleViewData_settle (o : outcome) (s : state)
  : state * list effect :=
  let '(s1, fx) :=
    match o with
    | Resolved data => (setShowDatasetModal true (setDataset data s), [])
    | Rejected err =>
        (setError (or_else (detail err) "Failed to fetch dataset.") s,
         [ConsoleError])
    end in
  (setIsLoadingViewData false s1, fx).

(** The [disabled] attributes of the buttons (lines 893-902), negated. *)
Definition generate_enabled (s : state) : bool := negb (isLoadingData s).

Definition train_enabled (s : state) : bool :=
  negb (isLoadingModel s || falsy (datasetStats s)).

Definition view_enabled (s : state) : bool :=
  negb (falsy (datasetStats s) || isLoadingViewData s).

(** The graph, monitor and diagnostics buttons share [disabled={!modelMetrics}]. *)
Definition modals_enabled (s : state) : bool := negb (falsy (modelMetrics s)).

(** [showDatasetModal && dataset && <DatasetModal .../>] (line 863). *)
Definition dataset_modal_shown (s : state) : bool :=
  showDatasetModal s && truthy (Some (dataset s)).


(** What happens to the dashboard over time: a handler is invoked, or a
    request settles. Nothing is assumed on their order. *)
Inductive action : Type :=
| Generate
| GenerateSettled (o : outcome)
| Train
| TrainSettled (o : outcome)
| View
| ViewSettled (o : outcome).

Definition act (s : state) (a : action) : state * list effect :=
  match a with
  | Generate => handleGenerateData_start s
  | GenerateSettled o => handleGenerateData_settle o s
  | Train => handleTrainModel_start s
  | TrainSettled o => handleTrainModel_settle o s
  | View => handleViewData_start s
  | ViewSettled o => handleViewData_settle o s
  end.

(** The final state and everything that was sent or logged on the way. *)
Fixpoint play (s : state) (acts : list action) : state * list effect :=
  match acts with
  | [] => (s, [])
  | a :: rest =>
      let '(s1, fx) := act s a in
      let '(s2, fx') := play s1 rest in
      (s2, fx ++ fx')
  end.

(** Actions by kind: a training (a view) request that settles with an
    answer; and the actions that can put an error: training clicked, which
    sets its hint when there is no dataset, and any request that settles
    rejected. *)
Definition answers_training (a : action) : bool :=
  match a with
  | TrainSettled (Resolved _) => true
  | _ => false
  end.

Definition answers_view (a : action) : bool :=
  match a with
  | ViewSettled (Resolved _) => true
  | _ => false
  end.


End Dashboard.

(** ** Signing in and out (Login.tsx lines 5-44 and 734-740, login1.tsx) *)

Module Auth.

(** The text of a storage entry, as far as the pages look at it: whether
    it is empty, and what [JSON.parse] makes of it. *)
Inductive text : Type :=
| EmptyText
| NonEmpty (parsed : frame).

(** The two entries of [localStorage] the application uses. Of the token
    only its presence and whether it is non-empty are ever read. Writes
    are taken to succeed. *)
Record storage : Type := mkStorage {
  token : option bool;
  user : option text
}.

Definition empty : storage := mkStorage None None.

(** [localStorage.clear()] *)
Definition clear (st : storage) : storage := empty.

(** [localStorage.setItem('token', v)]: what is stored is [String(v)]. *)
Definition setItem_token (v : jsprop) (st : storage) : storage :=
  mkStorage
    (Some (match v with Some x => negb (to_string_empty x) | None => true end))
    (user st).

(** [localStorage.setItem('user', JSON.stringify(v))]: for [undefined]
    the text stored is [undefined], which is not JSON. *)
Definition setItem_user_stringified (v : jsprop) (st : storage) : storage :=
  mkStorage (token st)
    (Some (NonEmpty (match v with
                     | Some x => Parsed (reparse x)
                     | None => Unparsable
                     end))).

Definition removeItem_token (st : storage) : storage := mkStorage None (user st).
Definition removeItem_user (st : storage) : storage := mkStorage (token st) None.

Inductive navigation : Type :=
| Push (path : string)
| Replace (path : string).

(** The state of the [Login] form. *)
Record login : Type := mkLogin {
  email : string;
  password : string;
  showPassword : bool;
  isLoading : bool;
  error : jsval
}.

Definition setIsLoading (b : bool) (s : login) : login :=
  mkLogin (email s) (password s) (showPassword s) b (error s).

Definition setError (v : jsval) (s : login) : login :=
  mkLogin (email s) (password s) (showPassword s) (isLoading s) v.

Definition initial : login := mkLogin EmptyString EmptyString false false (JStr EmptyString).

(** A string used as a condition. *)
Definition nonempty (s : string) : bool := negb (String.eqb s EmptyString).

(** How the [fetch] of [handleSubmit] ends: rejected, or answered with a
    status that is [ok] or not and a body that [response.json()] parses. *)
Inductive fetched : Type :=
| NoAnswer
| Answer (ok : bool) (body : frame).

Inductive request : Type :=
| LoginRequest (email password : string).

(** [handleSubmit] up to its [await fetch] (lines 13-22). *)
Definition handleSubmit_start (s : login) : login * list request :=
  (setError (JStr EmptyString) (setIsLoading true s),
   [LoginRequest (email s) (password s)]).

(** The [try] block after the fetch (lines 24-32); reading [data.token] or
    [data.detail] raises on [null], after which nothing can raise. *)
Definition handleSubmit_try (r : fetched) (s : login) (st : storage)
  : result (login * storage * list navigation) :=
  match r with
  | NoAnswer => Throw TypeError
  | Answer ok body =>
      data <- JSON_parse body ;;
      if ok then
        tok <- member data "token" ;;
        let st1 := setItem_token tok st in
        let st2 := setItem_user_stringified (prop data "user") st1 in
        Ok (s, st2, [Push "/"])
      else
        det <- member data "detail" ;;
        Ok (setError (or_else det "Invalid credentials") s, st, [])
  end.

(** [handleSubmit] from the moment the fetch has settled, with its
    [catch] and [finally] (lines 24-38). *)
Definition handleSubmit_settle (r : fetched) (s : login) (st : storage)
  : login * storage * list navigation :=
  let '(s1, st1, nav) :=
    match handleSubmit_try r s st with
    | Ok done => done
    | Throw _ => (setError (JStr "Connection error. Please try again.") s, st, [])
    end in
  (setIsLoading false s1, st1, nav).

(** [handleKeyPress] (lines 40-44). *)
Definition handleKeyPress (key : string) (s : login) : login * list request :=
  if String.eqb key "Enter" && nonempty (email s) && nonempty (password s)
  then handleSubmit_start s
  else (s, []).

(** The submit button is clickable unless
    [disabled={isLoading || !email || !password}] (line 214). *)
Definition submit_enabled (s : login) : bool :=
  negb (isLoading s || negb (nonempty (email s)) || negb (nonempty (password s))).

Definition item_truthy {A : Type} (nonempty_text : A -> bool) (item : option A) : bool :=
  match item with
  | Some t => nonempty_text t
  | None => false
  end.

Definition text_nonempty (t : text) : bool :=
  match t with
  | EmptyText => false
  | NonEmpty _ => true
  end.

Definition JSON_parse_text (t : text) : result jsval :=
  match t with
  | EmptyText => Throw SyntaxError
  | NonEmpty parsed => JSON_parse parsed
  end.

(** The effect of [LoginPage] (login1.tsx lines 9-23). *)
Definition LoginPage_effect (st : storage) : storage * list navigation :=
  if item_truthy (fun b => b) (token st) && item_truthy text_nonempty (user st)
  then
    match user st with
    | Some userStr =>
        match (user_ <- JSON_parse_text userStr ;;
               role <- member user_ "role" ;;
               Ok (strict_eq_str role "admin")) with
        | Ok true => (st, [Replace "/"])
        | Ok false => (st, [])
        | Throw _ => (clear st, [])
        end
    | None => (st, [])
    end
  else (st, []).

(** [handleLogout] (lines 734-740), given the answer to [confirm]. *)
Definition handleLogout (confirmed : bool) (st : storage)
  : storage * list navigation :=
  if confirmed
  then (removeItem_user (removeItem_token st), [Push "/login1"])
  else (st, []).

End Auth.

(** ** Properties of a session *)

Section Properties.

Implicit Types (s : session) (data : jsval) (datas : list jsval) (c : Stats.t).

(** How many of [datas] satisfy [p]. *)
Definition count (p : jsval -> bool) datas : Z :=
  Z.of_nat (length (filter p datas)).

(** What holds of the counters whatever the frames were. *)
Definition counters_ok c : Prop :=
  0 <= Stats.truePositives c /\ 0 <= Stats.falsePositives c /\
  Stats.truePositives c + Stats.falsePositives c <= Stats.alerts c /\
  Stats.alerts c <= Stats.total c.

(** An alerted event is labelled when its [fraud_actual] is [=== 0] or
    [=== 1]; the counters are scored when every alert is a true or a false
    positive. *)
Definition labelled data : Prop :=
  is_alert data = true ->
  fraud_actual_is data 0 || fraud_actual_is data 1 = true.

Definition scored c : Prop :=
  Stats.truePositives c + Stats.falsePositives c = Stats.alerts c.

(** The condition on a run: every alerted transaction event that
    arrives carries a label [=== 0] or [=== 1]. *)
Definition event_labelled (ev : event) : Prop :=
  match ev with
  | EvMessage (Parsed data) => is_transaction data = true -> labelled data
  | _ => True
  end.

(** What holds of the two windows whatever the frames were. *)
Definition windows_ok s : Prop :=
  Forall (fun d => is_alert d = true) (alerts s) /\
  (length (alerts s) <= 20)%nat /\
  (length (transactions s) <= 50)%nat.

(** The values of the transaction frames among [fs], in arrival order. *)
Definition transaction_datas (fs : list frame) : list jsval :=
  flat_map (fun f => match f with
                     | Parsed d => if is_transaction d then [d] else []
                     | Unparsable => []
                     end) fs.

End Properties.

(** ** Sample frames *)

Section Samples.

Definition num (n : Z) : jsval := JNum (Fin (inject_Z n)).

(** [{"type":"transaction","transaction_id":id,"is_alert":flag,
      "fraud_actual":label}] *)
Definition txn (id : Z) (flag : bool) (label : Z) : jsval :=
  JObj [("type", JStr "transaction"); ("transaction_id", num id);
        ("is_alert", JBool flag); ("fraud_actual", num label)].

(** The same without a [fraud_actual] field. *)
Definition txn_unlabelled (id : Z) (flag : bool) : jsval :=
  JObj [("type", JStr "transaction"); ("transaction_id", num id);
        ("is_alert", JBool flag)].

(** [{"type":"error","message":"x"}] *)
Definition error_x : jsval :=
  JObj [("type", JStr "error"); ("message", JStr "x")].

(** [{"type":"heartbeat"}] *)
Definition heartbeat : jsval := JObj [("type", JStr "heartbeat")].

Definition evA : jsval := txn 1 false 0.
Definition evB : jsval := txn 2 true 1.
Definition evC : jsval := txn 3 true 0.

(** Fifty-one events with the ids 1 to 51. *)
Definition nth_event (n : nat) : jsval := txn (Z.of_nat n) (Nat.even n) 1.
Definition stream51 : list jsval := map nth_event (seq 1 51).

(** Frames of every kind, two of them transactions. *)
Definition mixed_frames : list frame :=
  [Parsed evA; Unparsable; Parsed error_x; Parsed JNull; Parsed evB;
   Parsed heartbeat].

(** A graph of three nodes, the third without a link; the second link has
    been rewritten by the force graph, the third has no [time_step]. *)
Definition node1 : Graph.GraphNode := Graph.mkNode 1 0 0 false.
Definition node2 : Graph.GraphNode := Graph.mkNode 2 1 1 true.
Definition node3 : Graph.GraphNode := Graph.mkNode 3 0 0 false.
Definition link_day10 : Graph.GraphLink :=
  Graph.mkLink (Graph.Id 1) (Graph.Id 2) (Some (10 # 1)%Q).
Definition link_day60 : Graph.GraphLink :=
  Graph.mkLink (Graph.NodeRef node2) (Graph.NodeRef node2) (Some (60 # 1)%Q).
Definition link_undated : Graph.GraphLink :=
  Graph.mkLink (Graph.Id 2) (Graph.Id 2) None.
Definition small_graph : Graph.GraphData :=
  Graph.mkGraph [node1; node2; node3] [link_day10; link_day60; link_undated].

(** A dashboard that holds dataset statistics, and a rejection whose
    answer carries [{"detail":"Model busy"}]. *)
Definition with_stats : Dashboard.state :=
  Dashboard.setDatasetStats (JObj [("nodes", num 10)]) Dashboard.initial.
Definition busy : Dashboard.AxiosError :=
  Dashboard.mkError (Some (Some (JObj [("detail", JStr "Model busy")]))).

(** Clicks and failures, but no generation that succeeds. *)
Definition fruitless : list Dashboard.action :=
  [Dashboard.Train; Dashboard.Generate;
   Dashboard.GenerateSettled (Dashboard.Rejected busy); Dashboard.Train;
   Dashboard.View; Dashboard.ViewSettled (Dashboard.Resolved (JArr []));
   Dashboard.TrainSettled (Dashboard.Resolved (JObj [])); Dashboard.Train].

(** [{"token":"abc","user":{"role":"admin"}}] *)
Definition admin_answer : jsval :=
  JObj [("token", JStr "abc"); ("user", JObj [("role", JStr "admin")])].

End Samples.

(** ** Facts about the windows *)

Section WindowFacts.

Context {A : Type}.
Implicit Types (cap : nat) (x : A) (l xs : list A).

Lemma firstn_cons_firstn cap x l :
  firstn cap (x :: firstn cap l) = firstn cap (x :: l).
Proof.
  destruct cap as [|c]; [reflexivity|].
  rewrite !firstn_cons. f_equal.
  rewrite firstn_firstn. f_equal. lia.
Qed.

Lemma in_firstn cap x l : In x (firstn cap l) -> In x l.
Proof.
  intros H. rewrite <- (firstn_skipn cap l). apply in_or_app. now left.
Qed.

Lemma push_length cap x l :
  length (push cap x l) = Nat.min cap (S (length l)).
Proof. unfold push. now rewrite length_firstn. Qed.

Lemma push_bounded cap x l : (length (push cap x l) <= cap)%nat.
Proof. rewrite push_length. lia. Qed.

Lemma push_front cap x l :
  (0 < cap)%nat -> hd_error (push cap x l) = Some x.
Proof. destruct cap; [lia | reflexivity]. Qed.

Lemma push_below cap x l :
  (length l < cap)%nat -> push cap x l = x :: l.
Proof.
  intros H. unfold push. apply firstn_all2. cbn [length]. lia.
Qed.

(** A push onto a full window drops exactly its last element. *)
Lemma push_full cap x l :
  (0 < cap)%nat -> length l = cap -> push cap x l = x :: removelast l.
Proof.
  intros Hc Hl. destruct cap as [|c]; [lia|].
  unfold push. rewrite firstn_cons. f_equal.
  rewrite removelast_firstn_len, Hl. reflexivity.
Qed.

Lemma fold_push cap xs l :
  fold_left (fun prev item => push cap item prev) xs (firstn cap l)
  = firstn cap (rev xs ++ l).
Proof.
  revert l. induction xs as [|x xs IH]; intros l; [reflexivity|].
  cbn [fold_left rev]. unfold push at 2.
  rewrite firstn_cons_firstn, IH, <- app_assoc. reflexivity.
Qed.

(** Newest first: the window is the last [cap] pushes, latest in front. *)
Lemma pushes_newest_first cap xs : pushes cap xs = firstn cap (rev xs).
Proof.
  unfold pushes.
  replace (@nil A) with (firstn cap (@nil A)) at 1 by apply firstn_nil.
  now rewrite fold_push, app_nil_r.
Qed.

Lemma pushes_length cap xs :
  length (pushes cap xs) = Nat.min (length xs) cap.
Proof.
  rewrite pushes_newest_first, length_firstn, length_rev. lia.
Qed.

Lemma pushes_front cap xs x :
  (0 < cap)%nat -> hd_error (pushes cap (xs ++ [x])) = Some x.
Proof.
  intros H. rewrite pushes_newest_first, rev_app_distr. cbn [rev app].
  destruct cap; [lia | reflexivity].
Qed.

(** Once more items than the capacity were pushed, the first one is gone
    (the items being distinct). *)
Lemma pushes_first_evicted cap x xs :
  NoDup (x :: xs) -> (cap <= length xs)%nat -> ~ In x (pushes cap (x :: xs)).
Proof.
  intros Hnd Hlen Hin.
  rewrite pushes_newest_first in Hin. cbn [rev] in Hin.
  rewrite firstn_app in Hin.
  replace (cap - length (rev xs))%nat with 0%nat in Hin
    by (rewrite length_rev; lia).
  cbn [firstn] in Hin. rewrite app_nil_r in Hin.
  apply in_firstn, in_rev in Hin.
  inversion Hnd; contradiction.
Qed.

End WindowFacts.

(** ** Facts about the handler *)

Section HandlerFacts.

Implicit Types (s : session) (data : jsval) (f : frame) (ev : event).

Lemma tag_transaction_not_error (ty : jsprop) :
  strict_eq_str ty "transaction" = true -> strict_eq_str ty "error" = false.
Proof.
  destruct ty as [[| | |t| |]|]; cbn; try discriminate.
  intros H. apply String.eqb_eq in H. now subst t.
Qed.

Lemma is_transaction_object data :
  is_transaction data = true -> exists props, data = JObj props.
Proof.
  destruct data; cbn; try discriminate. intros _. now eexists.
Qed.

Lemma is_error_object data :
  is_error data = true -> exists props, data = JObj props.
Proof.
  destruct data; cbn; try discriminate. intros _. now eexists.
Qed.

Lemma member_not_null data k : data <> JNull -> member data k = Ok (prop data k).
Proof. destruct data; [congruence | reflexivity ..]. Qed.

Lemma onmessage_unparsable s : onmessage s Unparsable = Throw SyntaxError.
Proof. reflexivity. Qed.

Lemma onmessage_null s : onmessage s (Parsed JNull) = Throw TypeError.
Proof. reflexivity. Qed.

Lemma onmessage_error s data :
  is_error data = true ->
  onmessage s (Parsed data)
  = Ok (s, [WindowAlert "Backend Error: " (prop data "message")]).
Proof.
  intros H. destruct (is_error_object _ H) as [props ->].
  unfold is_error in H. unfold onmessage. cbn [JSON_parse bind member].
  now rewrite H.
Qed.

Lemma onmessage_transaction s data :
  is_transaction data = true ->
  onmessage s (Parsed data) = Ok (on_transaction s data).
Proof.
  intros H. destruct (is_transaction_object _ H) as [props ->].
  unfold is_transaction in H. unfold onmessage. cbn [JSON_parse bind member].
  now rewrite (tag_transaction_not_error _ H), H.
Qed.

(** Any other value than [null]: nothing happens. *)
Lemma onmessage_other s data :
  data <> JNull -> is_error data = false -> is_transaction data = false ->
  onmessage s (Parsed data) = Ok (s, []).
Proof.
  intros Hn He Ht. unfold onmessage. cbn [JSON_parse bind].
  rewrite (member_not_null _ _ Hn). cbn [bind].
  unfold is_error in He. unfold is_transaction in Ht. now rewrite He, Ht.
Qed.

(** The four ways a delivery can go. *)
Lemma deliver_cases s f :
  (exists fx, deliver s f = (s, fx)) \/
  (exists data, f = Parsed data /\ is_transaction data = true /\
                deliver s f = on_transaction s data).
Proof.
  unfold deliver. destruct f as [|data]; [left; now eexists|].
  destruct data as [| b | n | t | items | props];
    try (left; now eexists).
  destruct (is_error (JObj props)) eqn:He.
  - rewrite onmessage_error by assumption. left; now eexists.
  - destruct (is_transaction (JObj props)) eqn:Ht.
    + rewrite onmessage_transaction by assumption. right; now eexists.
    + rewrite onmessage_other by (assumption || discriminate).
      left; now eexists.
Qed.

(** What a transaction does to each part of the state. *)
Lemma on_transaction_transactions s data :
  transactions (fst (on_transaction s data)) = push 50 data (transactions s).
Proof. unfold on_transaction. now destruct (is_alert data). Qed.

Lemma on_transaction_alerts s data :
  alerts (fst (on_transaction s data))
  = if is_alert data then push 20 data (alerts s) else alerts s.
Proof. unfold on_transaction. now destruct (is_alert data). Qed.

Lemma on_transaction_stats s data :
  stats (fst (on_transaction s data)) = setStats_updater data (stats s).
Proof. unfold on_transaction. now destruct (is_alert data). Qed.

Lemma on_transaction_isConnected s data :
  isConnected (fst (on_transaction s data)) = isConnected s.
Proof. unfold on_transaction. now destruct (is_alert data). Qed.

Lemma on_transaction_ws s data : ws (fst (on_transaction s data)) = ws s.
Proof. unfold on_transaction. now destruct (is_alert data). Qed.

Lemma on_transaction_audioRef s data :
  audioRef (fst (on_transaction s data)) = audioRef s.
Proof. unfold on_transaction. now destruct (is_alert data). Qed.

Lemma deliver_transaction s data :
  is_transaction data = true -> deliver s (Parsed data) = on_transaction s data.
Proof. intros H. unfold deliver. now rewrite onmessage_transaction. Qed.

Lemma deliver_ws s f : ws (fst (deliver s f)) = ws s.
Proof.
  destruct (deliver_cases s f) as [[fx ->] | (data & _ & _ & ->)];
    [reflexivity | apply on_transaction_ws].
Qed.

Lemma deliver_isConnected s f : isConnected (fst (deliver s f)) = isConnected s.
Proof.
  destruct (deliver_cases s f) as [[fx ->] | (data & _ & _ & ->)];
    [reflexivity | apply on_transaction_isConnected].
Qed.

(** The ways a step can go: nothing changes in the windows and counters,
    or a transaction is taken in. *)
Lemma step_cases s ev :
  (transactions (fst (step s ev)) = transactions s /\
   alerts (fst (step s ev)) = alerts s /\
   stats (fst (step s ev)) = stats s) \/
  (exists data, ev = EvMessage (Parsed data) /\ ws s = OPEN /\
                is_transaction data = true /\
                step s ev = on_transaction s data).
Proof.
  unfold step. destruct ev as [|f|]; destruct (ws s) eqn:Hws;
    try (left; now repeat split).
  destruct (deliver_cases s f) as [[fx ->] | (data & -> & Ht & ->)].
  - left; now repeat split.
  - right. now exists data.
Qed.

Lemma run_app s evs evs' : run s (evs ++ evs') = run (run s evs) evs'.
Proof. apply fold_left_app. Qed.

Lemma run_cons s ev evs : run s (ev :: evs) = run (fst (step s ev)) evs.
Proof. reflexivity. Qed.

Lemma feed_cons s data datas :
  feed s (data :: datas) = feed (fst (step s (EvMessage (Parsed data)))) datas.
Proof. reflexivity. Qed.

Lemma step_transaction s data :
  ws s = OPEN -> is_transaction data = true ->
  step s (EvMessage (Parsed data)) = on_transaction s data.
Proof.
  intros Hws Ht. unfold step. rewrite Hws. now apply deliver_transaction.
Qed.

End HandlerFacts.

(** ** A run of transaction frames *)

Section Feeding.

Implicit Types (s : session) (data : jsval) (datas : list jsval).

Lemma count_cons p data datas :
  count p (data :: datas) = b2z (p data) + count p datas.
Proof.
  unfold count. cbn [filter]. destruct (p data); cbn [b2z length]; lia.
Qed.

Lemma feed_windows datas : forall s l a,
  ws s = OPEN ->
  Forall (fun d => is_transaction d = true) datas ->
  transactions s = firstn 50 l ->
  alerts s = firstn 20 a ->
  ws (feed s datas) = OPEN /\
  transactions (feed s datas) = firstn 50 (rev datas ++ l) /\
  alerts (feed s datas) = firstn 20 (rev (filter is_alert datas) ++ a).
Proof.
  induction datas as [|d datas IH]; intros s l a Hws Htx Hl Ha;
    [now repeat split|].
  inversion Htx as [|? ? Hd Hrest]; subst.
  rewrite feed_cons, (step_transaction _ _ Hws Hd).
  cbn [rev filter].
  assert (Hl' : transactions (fst (on_transaction s d)) = firstn 50 (d :: l)).
  { rewrite on_transaction_transactions, Hl. apply firstn_cons_firstn. }
  assert (Hws' : ws (fst (on_transaction s d)) = OPEN)
    by now rewrite on_transaction_ws.
  destruct (is_alert d) eqn:Hal.
  - assert (Ha' : alerts (fst (on_transaction s d)) = firstn 20 (d :: a)).
    { rewrite on_transaction_alerts, Hal, Ha. apply firstn_cons_firstn. }
    destruct (IH _ _ _ Hws' Hrest Hl' Ha') as (E1 & E2 & E3).
    cbn [rev]. rewrite <- !app_assoc. now repeat split.
  - assert (Ha' : alerts (fst (on_transaction s d)) = firstn 20 a)
      by now rewrite on_transaction_alerts, Hal.
    destruct (IH _ _ _ Hws' Hrest Hl' Ha') as (E1 & E2 & E3).
    rewrite <- !app_assoc. now repeat split.
Qed.

Lemma feed_stats datas : forall s,
  ws s = OPEN ->
  Forall (fun d => is_transaction d = true) datas ->
  Stats.total (stats (feed s datas))
    = Stats.total (stats s) + Z.of_nat (length datas) /\
  Stats.alerts (stats (feed s datas))
    = Stats.alerts (stats s) + count is_alert datas /\
  Stats.truePositives (stats (feed s datas))
    = Stats.truePositives (stats s)
      + count (fun d => is_alert d && fraud_actual_is d 1) datas /\
  Stats.falsePositives (stats (feed s datas))
    = Stats.falsePositives (stats s)
      + count (fun d => is_alert d && fraud_actual_is d 0) datas.
Proof.
  induction datas as [|d datas IH]; intros s Hws Htx.
  - unfold count. cbn. repeat split; lia.
  - inversion Htx as [|? ? Hd Hrest]; subst.
    rewrite feed_cons, (step_transaction _ _ Hws Hd).
    assert (Hws' : ws (fst (on_transaction s d)) = OPEN)
      by now rewrite on_transaction_ws.
    destruct (IH _ Hws' Hrest) as (E1 & E2 & E3 & E4).
    rewrite E1, E2, E3, E4, on_transaction_stats, !count_cons.
    cbn [setStats_updater Stats.total Stats.alerts Stats.truePositives
         Stats.falsePositives length].
    repeat split; lia.
Qed.

Lemma connected_open w : ws (connected w) = OPEN.
Proof. reflexivity. Qed.

End Feeding.

(** ** The windows (C1) *)

(** C1. After any sequence of transaction frames taken in by a freshly
    connected session, the transaction stream is the window of capacity 50
    over all of them and the alert feed the window of capacity 20 over the
    alerted ones: each is newest-first (the reversed pushes cut to the
    capacity), its length is the minimum of the number of pushes and the
    capacity, its front is the latest push, a push onto a full window drops
    exactly the last (oldest) element, and after 51 distinct transaction
    events the stream has length 50, lacks the first and starts with the
    51st. *)
Theorem C1_windows_after_pushes (has_window : bool) (datas : list jsval)
    (Htx : Forall (fun d => is_transaction d = true) datas) :
  let s := feed (connected has_window) datas in
  let flagged := filter is_alert datas in
  (transactions s = pushes 50 datas /\ alerts s = pushes 20 flagged) /\
  (transactions s = firstn 50 (rev datas) /\
   alerts s = firstn 20 (rev flagged)) /\
  (length (transactions s) = Nat.min (length datas) 50 /\
   length (alerts s) = Nat.min (length flagged) 20) /\
  (forall older d, datas = older ++ [d] -> hd_error (transactions s) = Some d) /\
  (forall older d, flagged = older ++ [d] -> hd_error (alerts s) = Some d) /\
  (forall d, is_transaction d = true -> length (transactions s) = 50%nat ->
     transactions (feed s [d]) = d :: removelast (transactions s)) /\
  (forall d, is_transaction d = true -> is_alert d = true ->
     length (alerts s) = 20%nat ->
     alerts (feed s [d]) = d :: removelast (alerts s)) /\
  (forall first rest, datas = first :: rest -> length datas = 51%nat ->
     NoDup datas ->
     length (transactions s) = 50%nat /\
     ~ In first (transactions s) /\
     hd_error (transactions s) = Some (last datas first)).
Proof.
  intros s flagged.
  destruct (feed_windows datas (connected has_window) [] []
              (connected_open _) Htx eq_refl eq_refl) as (Hws & Ht & Ha).
  fold s in Hws, Ht, Ha. fold flagged in Ha. rewrite app_nil_r in Ht, Ha.
  assert (Hpt : transactions s = pushes 50 datas)
    by now rewrite pushes_newest_first.
  assert (Hpa : alerts s = pushes 20 flagged)
    by now rewrite pushes_newest_first.
  repeat split; try assumption.
  - rewrite Hpt. apply pushes_length.
  - rewrite Hpa. apply pushes_length.
  - intros older d ->. rewrite Hpt. apply pushes_front. lia.
  - intros older d E. rewrite Hpa, E. apply pushes_front. lia.
  - intros d Hd Hfull. unfold feed. cbn [map run fold_left].
    rewrite (step_transaction _ _ Hws Hd), on_transaction_transactions.
    apply push_full; [lia | assumption].
  - intros d Hd Hal Hfull. unfold feed. cbn [map run fold_left].
    rewrite (step_transaction _ _ Hws Hd), on_transaction_alerts, Hal.
    apply push_full; [lia | assumption].
  - rewrite Hpt, pushes_length. lia.
  - rewrite Hpt. subst datas. apply pushes_first_evicted; [assumption|].
    cbn [length] in *. lia.
  - destruct (exists_last (l := datas)) as (older & d & E); [congruence|].
    rewrite Hpt, E, last_last. apply pushes_front. lia.
Qed.

(** ** The counters (C2, C3) *)

Section CounterFacts.

Implicit Types (s : session) (data : jsval) (c : Stats.t).

Lemma b2z_range (b : bool) : 0 <= b2z b <= 1.
Proof. destruct b; cbn; lia. Qed.

Lemma strict_eq_num_inject (n k : Z) :
  strict_eq_num (Some (JNum (Fin (inject_Z n)))) k = (n =? k).
Proof.
  cbn [strict_eq_num]. destruct (Z.eqb_spec n k) as [->|Hne].
  - apply Qeq_bool_iff. reflexivity.
  - destruct (Qeq_bool (inject_Z n) (inject_Z k)) eqn:E; [|reflexivity].
    apply Qeq_bool_eq in E. apply (proj1 (inject_Z_injective n k)) in E.
    contradiction.
Qed.

(** No value is [=== 1] and [=== 0] at once. *)
Lemma fraud_actual_exclusive data :
  fraud_actual_is data 1 && fraud_actual_is data 0 = false.
Proof.
  unfold fraud_actual_is, strict_eq_num.
  destruct (prop data "fraud_actual") as [[| | [q|] | | |]|];
    try reflexivity.
  destruct (Qeq_bool q (inject_Z 1)) eqn:E1; [|reflexivity].
  destruct (Qeq_bool q (inject_Z 0)) eqn:E0; [|reflexivity].
  apply Qeq_bool_eq in E1, E0. rewrite E1 in E0.
  apply (proj1 (inject_Z_injective 1 0)) in E0. discriminate.
Qed.

Lemma updater_ok data c : counters_ok c -> counters_ok (setStats_updater data c).
Proof.
  unfold counters_ok, setStats_updater. cbn.
  pose proof (fraud_actual_exclusive data) as Hx.
  destruct (is_alert data), (fraud_actual_is data 1),
    (fraud_actual_is data 0); cbn in *; try discriminate; lia.
Qed.

Lemma updater_le data c : Stats.le c (setStats_updater data c).
Proof.
  unfold Stats.le, setStats_updater. cbn.
  pose proof (b2z_range (is_alert data)).
  pose proof (b2z_range (is_alert data && fraud_actual_is data 1)).
  pose proof (b2z_range (is_alert data && fraud_actual_is data 0)).
  lia.
Qed.

Lemma stats_le_refl c : Stats.le c c.
Proof. unfold Stats.le. lia. Qed.

Lemma updater_scored data c :
  labelled data -> scored c -> scored (setStats_updater data c).
Proof.
  unfold labelled, scored, setStats_updater. cbn.
  pose proof (fraud_actual_exclusive data) as Hx.
  destruct (is_alert data), (fraud_actual_is data 1),
    (fraud_actual_is data 0); cbn in *; intros Hl Hs;
    try discriminate; try lia;
    try (specialize (Hl eq_refl); discriminate).
Qed.

Lemma step_le s ev : Stats.le (stats s) (stats (fst (step s ev))).
Proof.
  destruct (step_cases s ev) as [(_ & _ & ->) | (data & _ & _ & _ & ->)].
  - apply stats_le_refl.
  - rewrite on_transaction_stats. apply updater_le.
Qed.

Lemma stats_le_trans c1 c2 c3 : Stats.le c1 c2 -> Stats.le c2 c3 -> Stats.le c1 c3.
Proof. unfold Stats.le. lia. Qed.

Lemma run_le evs : forall s, Stats.le (stats s) (stats (run s evs)).
Proof.
  induction evs as [|ev evs IH]; intros s; [apply stats_le_refl|].
  rewrite run_cons. eapply stats_le_trans; [apply step_le | apply IH].
Qed.

Lemma step_ok s ev :
  counters_ok (stats s) -> counters_ok (stats (fst (step s ev))).
Proof.
  destruct (step_cases s ev) as [(_ & _ & ->) | (data & _ & _ & _ & ->)].
  - trivial.
  - rewrite on_transaction_stats. apply updater_ok.
Qed.

Lemma run_ok evs : forall s,
  counters_ok (stats s) -> counters_ok (stats (run s evs)).
Proof.
  induction evs as [|ev evs IH]; intros s H; [exact H|].
  rewrite run_cons. apply IH, step_ok, H.
Qed.

Lemma mount_ok w : counters_ok (stats (mount w)).
Proof. unfold counters_ok. cbn. lia. Qed.

Lemma step_scored s ev :
  event_labelled ev -> scored (stats s) -> scored (stats (fst (step s ev))).
Proof.
  intros Hl Hs.
  destruct (step_cases s ev) as [(_ & _ & ->) | (data & -> & _ & Ht & ->)].
  - exact Hs.
  - rewrite on_transaction_stats. apply updater_scored; [|exact Hs].
    apply Hl, Ht.
Qed.

Lemma run_scored evs : forall s,
  Forall event_labelled evs -> scored (stats s) -> scored (stats (run s evs)).
Proof.
  induction evs as [|ev evs IH]; intros s Hl Hs; [exact Hs|].
  inversion Hl; subst. rewrite run_cons. apply IH; [assumption|].
  now apply step_scored.
Qed.

End CounterFacts.

(** C2. A transaction frame is taken in by the handler, which adds exactly
    1 to [total], 1 to [alerts] exactly when [data.is_alert] holds, 1 to
    [truePositives] exactly when moreover [data.fraud_actual === 1] and 1 to
    [falsePositives] exactly when moreover [data.fraud_actual === 0]; no
    counter goes down; and after N transaction frames in a fresh session
    [total] is N and the other counters are the numbers of such events. For
    a boolean [is_alert] the condition is that it is [true], for an integer
    [fraud_actual] that it is 1 (or 0). *)
Theorem C2_counters_per_transaction (s : session) (data : jsval)
    (Htx : is_transaction data = true) :
  (exists s' fx,
     onmessage s (Parsed data) = Ok (s', fx) /\
     Stats.total (stats s') = Stats.total (stats s) + 1 /\
     Stats.alerts (stats s')
       = (if is_alert data then Stats.alerts (stats s) + 1
          else Stats.alerts (stats s)) /\
     Stats.truePositives (stats s')
       = (if is_alert data && fraud_actual_is data 1
          then Stats.truePositives (stats s) + 1
          else Stats.truePositives (stats s)) /\
     Stats.falsePositives (stats s')
       = (if is_alert data && fraud_actual_is data 0
          then Stats.falsePositives (stats s) + 1
          else Stats.falsePositives (stats s)) /\
     Stats.le (stats s) (stats s')) /\
  (forall b, prop data "is_alert" = Some (JBool b) -> is_alert data = b) /\
  (forall n k, prop data "fraud_actual" = Some (JNum (Fin (inject_Z n))) ->
     fraud_actual_is data k = (n =? k)) /\
  (forall has_window datas,
     Forall (fun d => is_transaction d = true) datas ->
     let c := stats (feed (connected has_window) datas) in
     Stats.total c = Z.of_nat (length datas) /\
     Stats.alerts c = count is_alert datas /\
     Stats.truePositives c
       = count (fun d => is_alert d && fraud_actual_is d 1) datas /\
     Stats.falsePositives c
       = count (fun d => is_alert d && fraud_actual_is d 0) datas).
Proof.
  split; [|split; [|split]].
  - exists (fst (on_transaction s data)), (snd (on_transaction s data)).
    rewrite onmessage_transaction, <- surjective_pairing by assumption.
    rewrite on_transaction_stats.
    split; [reflexivity|].
    split; [reflexivity|].
    cbn [setStats_updater Stats.total Stats.alerts Stats.truePositives
         Stats.falsePositives].
    split; [destruct (is_alert data); cbn [b2z]; lia|].
    split; [destruct (is_alert data && fraud_actual_is data 1); cbn [b2z]; lia|].
    split; [destruct (is_alert data && fraud_actual_is data 0); cbn [b2z]; lia|].
    apply updater_le.
  - intros b Hb. unfold is_alert. now rewrite Hb.
  - intros n k Hn. unfold fraud_actual_is. rewrite Hn.
    apply strict_eq_num_inject.
  - intros w datas Hall c.
    destruct (feed_stats datas (connected w) (connected_open w) Hall)
      as (E1 & E2 & E3 & E4).
    subst c. rewrite E1, E2, E3, E4. cbn. repeat split; lia.
Qed.

(** C3. In every state reached from a freshly mounted session by any
    sequence of socket events (opening, frames of any kind, closing): the
    four counters are non-negative, [alerts <= total],
    [truePositives + falsePositives <= alerts], and no step and no further
    run whatever lowers a counter. If moreover every alerted transaction
    event of the sequence carries a [fraud_actual] that is 0 or 1, then
    [truePositives + falsePositives = alerts]. Only this equality depends
    on the labels. *)
Theorem C3_counter_invariants (has_window : bool) (evs : list event) :
  let s := run (mount has_window) evs in
  let c := stats s in
  (0 <= Stats.total c /\ 0 <= Stats.alerts c /\
   0 <= Stats.truePositives c /\ 0 <= Stats.falsePositives c) /\
  Stats.alerts c <= Stats.total c /\
  Stats.truePositives c + Stats.falsePositives c <= Stats.alerts c /\
  (Forall event_labelled evs ->
   Stats.truePositives c + Stats.falsePositives c = Stats.alerts c) /\
  (forall ev, Stats.le c (stats (fst (step s ev)))) /\
  (forall more, Stats.le c (stats (run s more))).
Proof.
  intros s c.
  pose proof (run_ok evs _ (mount_ok has_window)) as (Htp & Hfp & Hsum & Hle).
  fold s in Htp, Hfp, Hsum, Hle. fold c in Htp, Hfp, Hsum, Hle.
  split; [lia|]. split; [lia|]. split; [lia|].
  split; [|split; [intros ev; apply step_le | intros more; apply run_le]].
  intros Hlab.
  exact (run_scored evs (mount has_window) Hlab eq_refl).
Qed.

(** ** What the windows hold (C4) *)

Section WindowInvariant.

Implicit Types (s : session) (data : jsval).

Lemma forall_firstn {A} (P : A -> Prop) n (l : list A) :
  Forall P l -> Forall P (firstn n l).
Proof.
  rewrite !Forall_forall. intros H x Hx. apply H. eapply in_firstn, Hx.
Qed.

Lemma step_windows_ok s ev : windows_ok s -> windows_ok (fst (step s ev)).
Proof.
  intros (Hall & Ha & Ht).
  destruct (step_cases s ev) as [(Et & Ea & _) | (data & _ & _ & _ & E)].
  - unfold windows_ok. now rewrite Et, Ea.
  - unfold windows_ok.
    rewrite E, on_transaction_transactions, on_transaction_alerts.
    destruct (is_alert data) eqn:Hal.
    + split; [|split; apply push_bounded].
      apply forall_firstn. now constructor.
    + split; [assumption|]. split; [assumption | apply push_bounded].
Qed.

Lemma run_windows_ok evs : forall s, windows_ok s -> windows_ok (run s evs).
Proof.
  induction evs as [|ev evs IH]; intros s H; [exact H|].
  rewrite run_cons. apply IH, step_windows_ok, H.
Qed.

Lemma mount_windows_ok w : windows_ok (mount w).
Proof. unfold windows_ok. cbn. split; [constructor | lia]. Qed.

(** A value that is not alerted never enters the alert feed. *)
Lemma step_not_alerted s data :
  is_alert data = false ->
  alerts (fst (step s (EvMessage (Parsed data)))) = alerts s.
Proof.
  intros Hal.
  destruct (step_cases s (EvMessage (Parsed data)))
    as [(_ & Ea & _) | (d & E & _ & _ & ->)]; [exact Ea|].
  injection E as <-. now rewrite on_transaction_alerts, Hal.
Qed.

End WindowInvariant.

(** C4. In every state reached from a freshly mounted session by any
    sequence of socket events, every event in the alert feed has a truthy
    [is_alert], the alert feed holds at most 20 events and the transaction
    stream at most 50; and a frame whose event is not alerted leaves the
    alert feed as it was (while, if it is a transaction, it does enter the
    transaction stream). *)
Theorem C4_alert_feed_holds_alerts (has_window : bool) (evs : list event) :
  let s := run (mount has_window) evs in
  Forall (fun d => is_alert d = true) (alerts s) /\
  (length (alerts s) <= 20)%nat /\
  (length (transactions s) <= 50)%nat /\
  (forall data, is_alert data = false ->
     alerts (fst (step s (EvMessage (Parsed data)))) = alerts s) /\
  (forall data, is_alert data = false -> is_transaction data = true ->
     ws s = OPEN ->
     transactions (fst (step s (EvMessage (Parsed data))))
     = push 50 data (transactions s)).
Proof.
  intros s.
  destruct (run_windows_ok evs _ (mount_windows_ok has_window))
    as (Hall & Ha & Ht).
  repeat split; try assumption.
  - intros data Hal. now apply step_not_alerted.
  - intros data _ Htx Hws.
    now rewrite step_transaction, on_transaction_transactions.
Qed.

(** ** Closing (C5) *)

Section Closing.

Implicit Types (s : session) (f : frame).

Lemma close_closed s : ws (close s) = CLOSED.
Proof. unfold close, step. now destruct (ws s) eqn:E. Qed.

Lemma step_message_closed s f :
  ws s = CLOSED -> step s (EvMessage f) = (s, []).
Proof. intros H. unfold step. now rewrite H. Qed.

Lemma run_messages_closed fs : forall s,
  ws s = CLOSED -> run s (map EvMessage fs) = s.
Proof.
  induction fs as [|f fs IH]; intros s H; [reflexivity|].
  cbn [map]. rewrite run_cons, step_message_closed by exact H.
  now apply IH.
Qed.

(** The handler has no guard of its own: were it invoked on a closed
    session, it would take the transaction in. That no frame changes
    anything after [close()] rests on the transport alone. *)
Lemma onmessage_ignores_readyState s data :
  is_transaction data = true ->
  exists s' fx,
    onmessage (close s) (Parsed data) = Ok (s', fx) /\
    Stats.total (stats s') = Stats.total (stats (close s)) + 1.
Proof.
  intros H. eexists _, _. rewrite onmessage_transaction by exact H.
  rewrite (surjective_pairing (on_transaction _ _)) at 1.
  split; [reflexivity|]. now rewrite on_transaction_stats.
Qed.

End Closing.

(** C5. Once the connection has been closed, no sequence of frames
    delivered afterwards changes the session: both windows and the four
    counters (and everything else) stay as [close()] left them; and closing
    a second time changes nothing. *)
Theorem C5_nothing_after_close (s : session) (fs : list frame) :
  let c := close s in
  let s' := run c (map EvMessage fs) in
  transactions s' = transactions c /\
  alerts s' = alerts c /\
  stats s' = stats c /\
  s' = c /\
  close c = c /\
  step c EvClose = (c, []).
Proof.
  intros c s'.
  assert (E : s' = c) by (apply run_messages_closed, close_closed).
  assert (Ec : step c EvClose = (c, [])).
  { unfold step.
    replace (ws c) with CLOSED by (symmetry; apply close_closed).
    reflexivity. }
  assert (Ecc : close c = c) by (unfold close; now rewrite Ec).
  rewrite E. now repeat split.
Qed.

(** ** Error frames and unknown frames (C6, C8) *)

(** C6. An ["error"] frame arriving on an open, connected session makes
    the handler return normally with one effect, the dialog
    [alert("Backend Error: " + data.message)], and the very same state: the
    indicator stays connected, the socket stays open, both windows and the
    four counters are unchanged. *)
Theorem C6_error_frame (s : session) (data : jsval)
    (Herr : is_error data = true)
    (Hopen : ws s = OPEN) (Hconn : isConnected s = true) :
  let dialog := WindowAlert "Backend Error: " (prop data "message") in
  onmessage s (Parsed data) = Ok (s, [dialog]) /\
  step s (EvMessage (Parsed data)) = (s, [dialog]) /\
  (forall m, prop data "message" = Some (JStr m) ->
     alert_text dialog = Some ("Backend Error: " ++ m)%string) /\
  let s' := fst (step s (EvMessage (Parsed data))) in
  isConnected s' = true /\ ws s' = OPEN /\
  transactions s' = transactions s /\ alerts s' = alerts s /\
  stats s' = stats s.
Proof.
  intros dialog.
  assert (E : step s (EvMessage (Parsed data)) = (s, [dialog])).
  { unfold step, deliver. now rewrite Hopen, onmessage_error. }
  split; [now apply onmessage_error|]. split; [exact E|].
  split; [intros m Hm; unfold dialog; now rewrite Hm|].
  rewrite E. cbn [fst]. now repeat split.
Qed.

(** A value other than [null] whose [type] is neither ["error"] nor
    ["transaction"]: the handler returns normally, with no effect and the
    same state. *)
Lemma unknown_tag_is_noop (s : session) (data : jsval) (ty : jsprop) :
  member data "type" = Ok ty ->
  strict_eq_str ty "error" = false ->
  strict_eq_str ty "transaction" = false ->
  onmessage s (Parsed data) = Ok (s, []) /\
  step s (EvMessage (Parsed data)) = (s, []).
Proof.
  intros Hm He Ht.
  assert (Hn : data <> JNull) by (intros ->; discriminate).
  rewrite member_not_null in Hm by exact Hn. injection Hm as <-.
  assert (E : onmessage s (Parsed data) = Ok (s, []))
    by now apply onmessage_other.
  split; [exact E|].
  unfold step, deliver. rewrite E. now destruct (ws s).
Qed.

(** Whatever the frame, a delivery that does not take a transaction in
    leaves windows, counters, indicator and socket as they were. *)
Lemma deliver_not_transaction (s : session) (f : frame) :
  (forall data, f = Parsed data -> is_transaction data = false) ->
  fst (deliver s f) = s.
Proof.
  intros H.
  destruct (deliver_cases s f) as [[fx ->] | (data & -> & Ht & _)];
    [reflexivity|].
  rewrite (H data eq_refl) in Ht. discriminate.
Qed.

(** ** Frames the handler does not survive (C7, C8) *)

(** C7. A frame whose body is not valid JSON is not logged and dropped by
    the handler: [JSON.parse] raises [SyntaxError], nothing catches it, and
    it leaves [ws.onmessage] as an uncaught exception (before any state
    update, so the state is the same). *)
Theorem C7_unparsable_frame_raises (s : session) :
  onmessage s Unparsable = Throw SyntaxError /\
  deliver s Unparsable = (s, [Uncaught SyntaxError]) /\
  ~ (exists s' fx, onmessage s Unparsable = Ok (s', fx)).
Proof.
  split; [reflexivity|]. split; [reflexivity|].
  intros (s' & fx & H). discriminate.
Qed.

(** C8. The valid JSON frame [null] carries neither tag, yet the handler
    does not ignore it: reading [data.type] raises [TypeError], which
    leaves [ws.onmessage] as an uncaught exception (before any state
    update, so the state is the same). *)
Theorem C8_null_frame_raises (s : session) :
  JSON_parse (Parsed JNull) = Ok JNull /\
  is_transaction JNull = false /\ is_error JNull = false /\
  onmessage s (Parsed JNull) = Throw TypeError /\
  deliver s (Parsed JNull) = (s, [Uncaught TypeError]) /\
  ~ (exists s' fx, onmessage s (Parsed JNull) = Ok (s', fx)).
Proof.
  repeat (split; [reflexivity|]).
  intros (s' & fx & H). discriminate.
Qed.

(** ** Replays and unlabelled alerts (C9, C10) *)

(** C9. The same transaction event delivered twice to an open session is
    taken in twice: [total] grows by 2, [alerts] by 2 when [data.is_alert]
    holds and by 0 otherwise, [truePositives] by 2 when moreover
    [data.fraud_actual === 1] and [falsePositives] by 2 when moreover
    [data.fraud_actual === 0], each by 0 otherwise; the event is pushed
    twice onto the transaction stream and, when alerted, twice onto the
    alert feed. Nothing compares the event with what the windows hold. *)
Theorem C9_replay_counts_twice (s : session) (data : jsval)
    (Htx : is_transaction data = true) (Hopen : ws s = OPEN) :
  let s2 := feed s [data; data] in
  Stats.total (stats s2) = Stats.total (stats s) + 2 /\
  Stats.alerts (stats s2)
    = (if is_alert data then Stats.alerts (stats s) + 2
       else Stats.alerts (stats s)) /\
  Stats.truePositives (stats s2)
    = (if is_alert data && fraud_actual_is data 1
       then Stats.truePositives (stats s) + 2
       else Stats.truePositives (stats s)) /\
  Stats.falsePositives (stats s2)
    = (if is_alert data && fraud_actual_is data 0
       then Stats.falsePositives (stats s) + 2
       else Stats.falsePositives (stats s)) /\
  transactions s2 = push 50 data (push 50 data (transactions s)) /\
  transactions s2 = firstn 50 (data :: data :: transactions s) /\
  alerts s2 = (if is_alert data
               then push 20 data (push 20 data (alerts s))
               else alerts s) /\
  (is_alert data = true ->
   alerts s2 = firstn 20 (data :: data :: alerts s)).
Proof.
  intros s2. subst s2. unfold feed. cbn [map run fold_left].
  rewrite (step_transaction _ _ Hopen Htx).
  assert (Hopen' : ws (fst (on_transaction s data)) = OPEN)
    by now rewrite on_transaction_ws.
  rewrite (step_transaction _ _ Hopen' Htx).
  rewrite !on_transaction_stats, !on_transaction_transactions,
    !on_transaction_alerts.
  cbn [setStats_updater Stats.total Stats.alerts Stats.truePositives
       Stats.falsePositives].
  split; [lia|].
  split; [destruct (is_alert data); cbn [b2z]; lia|].
  split; [destruct (is_alert data && fraud_actual_is data 1); cbn [b2z]; lia|].
  split; [destruct (is_alert data && fraud_actual_is data 0); cbn [b2z]; lia|].
  split; [reflexivity|].
  split; [unfold push; apply firstn_cons_firstn|].
  split; [now destruct (is_alert data)|].
  intros ->. unfold push. apply firstn_cons_firstn.
Qed.

(** C10. In any state reached from a freshly mounted session, a
    transaction frame that is alerted but whose [fraud_actual] is neither
    [=== 0] nor [=== 1] (absent, 2, a string) is taken in all the same:
    the event enters both windows, [total] and [alerts] grow by 1,
    [truePositives] and [falsePositives] stay, and afterwards
    [truePositives + falsePositives < alerts]. *)
Theorem C10_unlabelled_alert_is_counted (has_window : bool) (evs : list event)
    (data : jsval)
    (Htx : is_transaction data = true) (Hal : is_alert data = true)
    (H0 : fraud_actual_is data 0 = false)
    (H1 : fraud_actual_is data 1 = false) :
  let s := run (mount has_window) evs in
  exists s' fx,
    onmessage s (Parsed data) = Ok (s', fx) /\
    Stats.total (stats s') = Stats.total (stats s) + 1 /\
    Stats.alerts (stats s') = Stats.alerts (stats s) + 1 /\
    Stats.truePositives (stats s') = Stats.truePositives (stats s) /\
    Stats.falsePositives (stats s') = Stats.falsePositives (stats s) /\
    Stats.truePositives (stats s') + Stats.falsePositives (stats s')
      < Stats.alerts (stats s') /\
    transactions s' = push 50 data (transactions s) /\
    alerts s' = push 20 data (alerts s).
Proof.
  intros s.
  pose proof (run_ok evs _ (mount_ok has_window)) as (Htp & Hfp & Hsum & Hle).
  fold s in Htp, Hfp, Hsum, Hle.
  exists (fst (on_transaction s data)), (snd (on_transaction s data)).
  rewrite onmessage_transaction, <- surjective_pairing by assumption.
  rewrite on_transaction_stats, on_transaction_transactions,
    on_transaction_alerts, Hal.
  cbn [setStats_updater Stats.total Stats.alerts Stats.truePositives
       Stats.falsePositives].
  rewrite Hal, H0, H1. cbn [andb b2z].
  repeat split; lia.
Qed.

(** ** Concrete sessions *)

Section Scenarios.

Lemma nth_event_injective n m : nth_event n = nth_event m -> n = m.
Proof.
  unfold nth_event, txn, num, inject_Z. intros H.
  injection H as Hid _. now apply Nat2Z.inj.
Qed.

Lemma stream51_NoDup : NoDup stream51.
Proof.
  unfold stream51. apply Injective_map_NoDup.
  - intros n m. apply nth_event_injective.
  - apply seq_NoDup.
Qed.

(** Scenarios 1 to 3 of the specification, one after the other. *)
Example scenario_1 :
  let s := feed (connected true) [evA] in
  stats s = Stats.mk 1 0 0 0 /\ transactions s = [evA] /\ alerts s = [].
Proof. now vm_compute. Qed.

Example scenario_2 :
  let s := feed (connected true) [evA; evB] in
  stats s = Stats.mk 2 1 1 0 /\ alerts s = [evB].
Proof. now vm_compute. Qed.

Example scenario_3 :
  let s := feed (connected true) [evA; evB; evC] in
  stats s = Stats.mk 3 2 1 1 /\ alerts s = [evC; evB] /\
  transactions s = [evC; evB; evA].
Proof. now vm_compute. Qed.

(** A frame with an unknown tag, and values that are no object at all. *)
Example heartbeat_ignored :
  onmessage (connected true) (Parsed heartbeat) = Ok (connected true, []) /\
  onmessage (connected true) (Parsed (num 5)) = Ok (connected true, []) /\
  onmessage (connected true) (Parsed (JArr [])) = Ok (connected true, []).
Proof. now vm_compute. Qed.

(** An alert without a [fraud_actual] field, and one whose label is the
    string ["1"]: counted as alerts, scored as neither. *)
Example unlabelled_alert :
  stats (feed (connected true) [txn_unlabelled 9 true]) = Stats.mk 1 1 0 0 /\
  stats (feed (connected true)
           [JObj [("type", JStr "transaction"); ("is_alert", JBool true);
                  ("fraud_actual", JStr "1")]]) = Stats.mk 1 1 0 0.
Proof. now vm_compute. Qed.

Example stream51_last : last stream51 (nth_event 1) = nth_event 51.
Proof. reflexivity. Qed.

End Scenarios.

Lemma C1_witness :
  Forall (fun d => is_transaction d = true) stream51 /\
  length (transactions (feed (connected true) stream51)) = 50%nat /\
  ~ In (nth_event 1) (transactions (feed (connected true) stream51)) /\
  hd_error (transactions (feed (connected true) stream51))
  = Some (last stream51 (nth_event 1)).
Proof.
  assert (H : Forall (fun d => is_transaction d = true) stream51)
    by (unfold stream51; cbn [seq map]; repeat constructor).
  split; [exact H|].
  destruct (C1_windows_after_pushes true stream51 H)
    as (_ & _ & _ & _ & _ & _ & _ & Hscenario).
  apply (Hscenario (nth_event 1) (map nth_event (seq 2 50)));
    [reflexivity | reflexivity | exact stream51_NoDup].
Defined.

Lemma C2_witness :
  is_transaction evB = true /\
  exists s' fx,
    onmessage (connected true) (Parsed evB) = Ok (s', fx) /\
    Stats.total (stats s') = 1 /\ Stats.alerts (stats s') = 1 /\
    Stats.truePositives (stats s') = 1 /\ Stats.falsePositives (stats s') = 0.
Proof.
  split; [reflexivity|].
  destruct (C2_counters_per_transaction (connected true) evB eq_refl)
    as ((s' & fx & E & Ht & Ha & Htp & Hfp & _) & _).
  exists s', fx. repeat split; assumption.
Defined.

Lemma C3_witness :
  let evs := [EvOpen; EvMessage (Parsed evA); EvMessage (Parsed evB);
              EvMessage Unparsable; EvMessage (Parsed JNull);
              EvMessage (Parsed error_x); EvMessage (Parsed evC);
              EvClose; EvMessage (Parsed evB)] in
  let unlabelled := [EvOpen; EvMessage (Parsed evB);
                     EvMessage (Parsed (txn 7 true 2))] in
  (Forall event_labelled evs /\
   let c := stats (run (mount true) evs) in
   Stats.alerts c <= Stats.total c /\
   Stats.truePositives c + Stats.falsePositives c = Stats.alerts c) /\
  (let c := stats (run (mount true) unlabelled) in
   0 <= Stats.falsePositives c /\
   Stats.alerts c <= Stats.total c /\
   Stats.truePositives c + Stats.falsePositives c <= Stats.alerts c /\
   Stats.le c (stats (fst (step (run (mount true) unlabelled)
                             (EvMessage (Parsed evC)))))).
Proof.
  intros evs unlabelled.
  assert (H : Forall event_labelled evs).
  { unfold evs.
    repeat (constructor;
            [vm_compute; try exact I; intros; (reflexivity || discriminate)|]).
    constructor. }
  split.
  - split; [exact H|].
    destruct (C3_counter_invariants true evs) as (_ & Hle & _ & Hsum & _).
    split; [exact Hle | exact (Hsum H)].
  - destruct (C3_counter_invariants true unlabelled)
      as ((_ & _ & _ & Hfp) & Hle & Hsum & _ & Hstep & _).
    split; [exact Hfp|]. split; [exact Hle|]. split; [exact Hsum|].
    apply Hstep.
Defined.

Lemma C4_witness :
  let s := run (mount true)
               [EvOpen; EvMessage (Parsed evB); EvMessage (Parsed evC)] in
  is_alert evA = false /\
  Forall (fun d => is_alert d = true) (alerts s) /\
  alerts (fst (step s (EvMessage (Parsed evA)))) = alerts s.
Proof.
  intros s. split; [reflexivity|].
  destruct (C4_alert_feed_holds_alerts true
              [EvOpen; EvMessage (Parsed evB); EvMessage (Parsed evC)])
    as (Hall & _ & _ & Hnot & _).
  split; [exact Hall | apply Hnot; reflexivity].
Defined.

Lemma C6_witness :
  is_error error_x = true /\ ws (connected true) = OPEN /\
  isConnected (connected true) = true /\
  step (connected true) (EvMessage (Parsed error_x))
  = (connected true, [WindowAlert "Backend Error: " (Some (JStr "x"))]).
Proof.
  split; [reflexivity|]. split; [reflexivity|]. split; [reflexivity|].
  apply (C6_error_frame (connected true) error_x eq_refl eq_refl eq_refl).
Defined.

Lemma C9_witness :
  is_transaction evB = true /\ ws (connected true) = OPEN /\
  (let c := stats (feed (connected true) [evB; evB]) in
   Stats.total c = 2 /\ Stats.alerts c = 2 /\
   Stats.truePositives c = 2 /\ Stats.falsePositives c = 0) /\
  transactions (feed (connected true) [evB; evB]) = [evB; evB] /\
  alerts (feed (connected true) [evB; evB]) = [evB; evB].
Proof.
  split; [reflexivity|]. split; [reflexivity|].
  destruct (C9_replay_counts_twice (connected true) evB eq_refl eq_refl)
    as (Ht & Ha & Htp & Hfp & _ & Hw & _ & Hf).
  split; [|split; [exact Hw | exact (Hf eq_refl)]].
  split; [exact Ht|]. split; [exact Ha|]. split; [exact Htp | exact Hfp].
Defined.

Lemma C10_witness :
  let data := txn 7 true 2 in
  let s := run (mount true) [EvOpen; EvMessage (Parsed evB)] in
  (is_transaction data = true /\ is_alert data = true /\
   fraud_actual_is data 0 = false /\ fraud_actual_is data 1 = false) /\
  exists s' fx,
    onmessage s (Parsed data) = Ok (s', fx) /\
    Stats.truePositives (stats s') + Stats.falsePositives (stats s')
      < Stats.alerts (stats s').
Proof.
  intros data s. split; [repeat split; reflexivity|].
  destruct (C10_unlabelled_alert_is_counted true
              [EvOpen; EvMessage (Parsed evB)] data
              eq_refl eq_refl eq_refl eq_refl)
    as (s' & fx & E & _ & _ & _ & _ & Hlt & _).
  exists s', fx. split; [exact E | exact Hlt].
Defined.

(** ** More on the monitor *)

Section MonitorExtras.

Implicit Types (s : session) (data : jsval) (f : frame) (ev : event).

Lemma filter_firstn_length {A} (p : A -> bool) n (l : list A) :
  (length (filter p (firstn n l)) <= length (filter p l))%nat.
Proof.
  revert n. induction l as [|x l IH]; intros [|n]; cbn; try lia.
  specialize (IH n). destruct (p x); cbn; lia.
Qed.

Lemma step_lengths s ev :
  Z.of_nat (length (transactions s)) = Z.min (Stats.total (stats s)) 50 ->
  Z.of_nat (length (alerts s)) = Z.min (Stats.alerts (stats s)) 20 ->
  Z.of_nat (length (transactions (fst (step s ev))))
    = Z.min (Stats.total (stats (fst (step s ev)))) 50 /\
  Z.of_nat (length (alerts (fst (step s ev))))
    = Z.min (Stats.alerts (stats (fst (step s ev)))) 20.
Proof.
  intros Ht Ha.
  destruct (step_cases s ev) as [(-> & -> & ->) | (data & _ & _ & _ & ->)];
    [now split|].
  rewrite on_transaction_transactions, on_transaction_alerts,
    on_transaction_stats.
  cbn [setStats_updater Stats.total Stats.alerts].
  destruct (is_alert data); rewrite ?push_length; cbn [b2z]; lia.
Qed.

Lemma step_badges s ev :
  MonitorView.confirmed_badges s <= Stats.truePositives (stats s) ->
  MonitorView.confirmed_badges (fst (step s ev))
    <= Stats.truePositives (stats (fst (step s ev))).
Proof.
  unfold MonitorView.confirmed_badges. intros H.
  destruct (step_cases s ev) as [(_ & -> & ->) | (data & _ & _ & _ & ->)];
    [exact H|].
  rewrite on_transaction_alerts, on_transaction_stats.
  cbn [setStats_updater Stats.truePositives].
  destruct (is_alert data); cbn [andb b2z]; [|lia].
  unfold push.
  pose proof (filter_firstn_length MonitorView.confirmed_fraud 20
                (data :: alerts s)) as Hf.
  cbn [filter] in Hf. unfold MonitorView.confirmed_fraud at 2 in Hf.
  destruct (fraud_actual_is data 1); cbn [length b2z] in *; lia.
Qed.

End MonitorExtras.

(** X1. Only the transaction frames count: delivering any frames to an
    open session leaves it exactly as delivering, in the same order, the
    values of those among them that are transactions. Error frames,
    frames with another tag, [null] and unparsable frames in between
    change nothing, and [total] is the number of transaction frames. *)
Theorem only_transactions_count (s : session) (fs : list frame)
    (Hopen : ws s = OPEN) :
  run s (map EvMessage fs) = feed s (transaction_datas fs) /\
  Stats.total (stats (run s (map EvMessage fs)))
  = Stats.total (stats s) + Z.of_nat (length (transaction_datas fs)).
Proof.
  assert (E : run s (map EvMessage fs) = feed s (transaction_datas fs)).
  { revert s Hopen. induction fs as [|f fs IH]; intros s Hopen; [reflexivity|].
    cbn [map]. rewrite run_cons.
    assert (Hstep : step s (EvMessage f) = deliver s f)
      by (unfold step; now rewrite Hopen).
    rewrite Hstep.
    assert (Hopen' : ws (fst (deliver s f)) = OPEN) by now rewrite deliver_ws.
    rewrite (IH _ Hopen').
    cbn [transaction_datas flat_map].
    fold (transaction_datas fs).
    destruct f as [|d]; [reflexivity|].
    destruct (is_transaction d) eqn:Ht.
    - cbn [app]. rewrite feed_cons, (step_transaction _ _ Hopen Ht).
      now rewrite deliver_transaction.
    - cbn [app]. rewrite deliver_not_transaction; [reflexivity|].
      intros d' [= <-]. exact Ht. }
  split; [exact E|]. rewrite E.
  assert (Hall : Forall (fun d => is_transaction d = true) (transaction_datas fs)).
  { unfold transaction_datas. apply Forall_forall. intros d Hd.
    apply in_flat_map in Hd. destruct Hd as ([|d'] & _ & Hin); [destruct Hin|].
    destruct (is_transaction d') eqn:Ht; [|destruct Hin].
    destruct Hin as [<-|[]]. exact Ht. }
  now destruct (feed_stats _ s Hopen Hall) as (-> & _).
Qed.

(** X2. In every state reached from a freshly mounted session the windows
    are as long as the counters say: the transaction stream holds
    [min(total, 50)] events and the alert feed [min(alerts, 20)]. *)
Theorem windows_track_counters (has_window : bool) (evs : list event) :
  let s := run (mount has_window) evs in
  Z.of_nat (length (transactions s)) = Z.min (Stats.total (stats s)) 50 /\
  Z.of_nat (length (alerts s)) = Z.min (Stats.alerts (stats s)) 20.
Proof.
  cbv zeta. generalize (mount has_window) (eq_refl : Z.of_nat (length (transactions (mount has_window))) = Z.min (Stats.total (stats (mount has_window))) 50) (eq_refl : Z.of_nat (length (alerts (mount has_window))) = Z.min (Stats.alerts (stats (mount has_window))) 20).
  induction evs as [|ev evs IH]; intros s Ht Ha; [now split|].
  rewrite run_cons. destruct (step_lengths s ev Ht Ha) as (Ht' & Ha').
  now apply IH.
Qed.

(** X3. A sound is played for a frame exactly when the frame is a
    transaction whose event is alerted and the player exists; never for an
    error frame, an unknown frame or a frame that raises, and at most once
    per frame. *)
Theorem sound_only_for_alerts (s : session) (f : frame) :
  (In AudioPlay (snd (deliver s f)) <->
   exists data, f = Parsed data /\ is_transaction data = true /\
                is_alert data = true /\ audioRef s = true) /\
  (length (filter (fun fx => match fx with AudioPlay => true | _ => false end)
                  (snd (deliver s f))) <= 1)%nat.
Proof.
  destruct f as [|data].
  { split; [|cbn; lia]. split.
    - cbn. intros [H|[]]. discriminate.
    - intros (d & H & _). discriminate. }
  destruct (is_transaction data) eqn:Ht.
  - rewrite deliver_transaction by exact Ht. unfold on_transaction.
    destruct (is_alert data) eqn:Hal; cbn [snd setAlerts audioRef setStats
                                             setTransactions].
    + destruct (audioRef s) eqn:Hau; cbn; (split; [|lia]); split.
      * intros _. now exists data.
      * intros _. now left.
      * intros [].
      * intros (d & _ & _ & _ & H). discriminate.
    + split; [|cbn; lia]. split; [intros []|].
      intros (d & [= <-] & _ & H & _). congruence.
  - assert (Hnone : ~ exists d, Parsed data = Parsed d /\
                       is_transaction d = true /\ is_alert d = true /\
                       audioRef s = true).
    { intros (d & [= <-] & H & _). congruence. }
    destruct data as [| b | n | t | items | props];
      try (cbn; split; [split; [intros [H|[]]; discriminate
                               | intros H; now destruct Hnone]
                       | lia]);
      try (cbn; split; [split; [intros []
                               | intros H; now destruct Hnone]
                       | lia]).
    destruct (is_error (JObj props)) eqn:He.
    + unfold deliver. rewrite onmessage_error by exact He. cbn.
      split; [|lia]. split; [intros [H|[]]; discriminate|].
      intros H; now destruct Hnone.
    + unfold deliver. rewrite onmessage_other by (assumption || discriminate).
      cbn. split; [|lia]. split; [intros []|]. intros H; now destruct Hnone.
Qed.

(** X4. The feed never shows more confirmed frauds than were counted: in
    every state reached from a freshly mounted session, the number of
    entries of the alert feed that carry the badge shown for
    [fraud_actual === 1] is at most [truePositives]. *)
Theorem badges_at_most_true_positives (has_window : bool) (evs : list event) :
  let s := run (mount has_window) evs in
  MonitorView.confirmed_badges s <= Stats.truePositives (stats s).
Proof.
  cbv zeta.
  assert (H0 : MonitorView.confirmed_badges (mount has_window)
               <= Stats.truePositives (stats (mount has_window)))
    by (cbn; lia).
  revert H0. generalize (mount has_window).
  induction evs as [|ev evs IH]; intros s H; [exact H|].
  rewrite run_cons. apply IH, step_badges, H.
Qed.

(** ** The time slider *)

Section GraphFacts.

Implicit Types (g : Graph.GraphData) (t : Q) (l : Graph.GraphLink)
  (n : Graph.GraphNode).

Lemma has_In (ids : list Z) (k : Z) : Graph.has ids k = true <-> In k ids.
Proof.
  unfold Graph.has. rewrite existsb_exists. split.
  - intros (x & Hx & E). apply Z.eqb_eq in E. now subst.
  - intros H. exists k. split; [exact H | apply Z.eqb_refl].
Qed.

Lemma visible_In (ls : list Graph.GraphLink) (k : Z) :
  In k (Graph.visibleNodeIds ls) <->
  exists l, In l ls /\
    (Graph.endpoint_id (Graph.source l) = k \/
     Graph.endpoint_id (Graph.target l) = k).
Proof.
  unfold Graph.visibleNodeIds. rewrite in_flat_map. split.
  - intros (l & Hl & [E|[E|[]]]); exists l; auto.
  - intros (l & Hl & [E|E]); exists l; cbn; auto.
Qed.

Lemma filter_filter_weaker {A} (p q : A -> bool) (xs : list A) :
  (forall x, In x xs -> p x = true -> q x = true) ->
  filter p (filter q xs) = filter p xs.
Proof.
  induction xs as [|x xs IH]; intros H; [reflexivity|].
  cbn [filter]. destruct (q x) eqn:Eq.
  - cbn [filter]. destruct (p x); rewrite IH; auto using in_cons.
  - destruct (p x) eqn:Ep.
    + rewrite (H x (in_eq _ _) Ep) in Eq. discriminate.
    + apply IH. auto using in_cons.
Qed.

Lemma shown_weaker t1 t2 l :
  (t1 <= t2)%Q -> Graph.shown t1 l = true -> Graph.shown t2 l = true.
Proof.
  unfold Graph.shown. rewrite !Qle_bool_iff. intros H12 H.
  eapply Qle_trans; eassumption.
Qed.

End GraphFacts.

(** X5. What the slider shows: a link is shown exactly when it is a link
    of the loaded graph whose [time_step] (0 when absent) is at most the
    slider's value, and a node exactly when it is a node of the loaded
    graph at one end of a shown link; a node that no shown link touches is
    not shown. *)
Theorem slider_shows_linked_nodes (g : Graph.GraphData) (t : Q) :
  (forall l, In l (Graph.links (Graph.filter_graph g t)) <->
     In l (Graph.links g) /\ (Graph.time_or_0 l <= t)%Q) /\
  (forall n, In n (Graph.nodes (Graph.filter_graph g t)) <->
     In n (Graph.nodes g) /\
     exists l, In l (Graph.links (Graph.filter_graph g t)) /\
               Graph.touches l n) /\
  (forall n, (forall l, In l (Graph.links g) -> ~ Graph.touches l n) ->
     ~ In n (Graph.nodes (Graph.filter_graph g t))).
Proof.
  assert (Hl : forall l, In l (Graph.links (Graph.filter_graph g t)) <->
                 In l (Graph.links g) /\ (Graph.time_or_0 l <= t)%Q).
  { intros l. cbn. rewrite filter_In. unfold Graph.shown.
    now rewrite Qle_bool_iff. }
  assert (Hn : forall n, In n (Graph.nodes (Graph.filter_graph g t)) <->
                 In n (Graph.nodes g) /\
                 exists l, In l (Graph.links (Graph.filter_graph g t)) /\
                           Graph.touches l n).
  { intros n. cbn. rewrite filter_In, has_In, visible_In. reflexivity. }
  split; [exact Hl|]. split; [exact Hn|].
  intros n Hnone Hin. apply Hn in Hin. destruct Hin as (_ & l & Hlin & Ht).
  apply Hl in Hlin. exact (Hnone l (proj1 Hlin) Ht).
Qed.

(** X6. Moving the slider down only hides: for [t1 <= t2] what is shown at
    [t1] is what filtering at [t1] keeps of what is shown at [t2], so every
    link and node shown at [t1] is shown at [t2]. *)
Theorem slider_is_monotone (g : Graph.GraphData) (t1 t2 : Q)
    (Hle : (t1 <= t2)%Q) :
  Graph.filter_graph (Graph.filter_graph g t2) t1 = Graph.filter_graph g t1 /\
  incl (Graph.links (Graph.filter_graph g t1))
       (Graph.links (Graph.filter_graph g t2)) /\
  incl (Graph.nodes (Graph.filter_graph g t1))
       (Graph.nodes (Graph.filter_graph g t2)).
Proof.
  assert (El : filter (Graph.shown t1) (filter (Graph.shown t2) (Graph.links g))
               = filter (Graph.shown t1) (Graph.links g)).
  { apply filter_filter_weaker. intros l _. now apply shown_weaker. }
  assert (Hids : forall k,
             Graph.has (Graph.visibleNodeIds
                          (filter (Graph.shown t1) (Graph.links g))) k = true ->
             Graph.has (Graph.visibleNodeIds
                          (filter (Graph.shown t2) (Graph.links g))) k = true).
  { intros k. rewrite !has_In, !visible_In. intros (l & Hl & Hk).
    exists l. split; [|exact Hk].
    apply filter_In in Hl. apply filter_In.
    split; [tauto | now apply (shown_weaker t1 t2)]. }
  assert (E : Graph.filter_graph (Graph.filter_graph g t2) t1
              = Graph.filter_graph g t1).
  { unfold Graph.filter_graph. cbn [Graph.links Graph.nodes]. rewrite El.
    f_equal. apply filter_filter_weaker. intros n _. apply Hids. }
  split; [exact E|]. rewrite <- E.
  split; intros x Hx; cbn in Hx; apply filter_In in Hx; tauto.
Qed.

(** X7. With the slider at or beyond every [time_step] all links of the
    loaded graph are shown, in their order, and the nodes shown are the
    linked ones: a node without any link is dropped although it was loaded;
    and until the graph is loaded the slider changes nothing. *)
Theorem slider_at_the_end (g : Graph.GraphData) (t : Q)
    (Hall : forall l, In l (Graph.links g) -> (Graph.time_or_0 l <= t)%Q) :
  Graph.links (Graph.filter_graph g t) = Graph.links g /\
  Graph.nodes (Graph.filter_graph g t)
  = filter (fun n => Graph.has (Graph.visibleNodeIds (Graph.links g)) (Graph.id n))
           (Graph.nodes g) /\
  (forall n, (forall l, In l (Graph.links g) -> ~ Graph.touches l n) ->
     ~ In n (Graph.nodes (Graph.filter_graph g t))) /\
  (forall shown_now, Graph.on_timeStep None t shown_now = shown_now) /\
  Graph.on_timeStep (Some g) t None = Some (Graph.filter_graph g t).
Proof.
  assert (El : filter (Graph.shown t) (Graph.links g) = Graph.links g).
  { apply forallb_filter_id. apply forallb_forall. intros l Hl.
    unfold Graph.shown. apply Qle_bool_iff. now apply Hall. }
  unfold Graph.filter_graph. cbn [Graph.links Graph.nodes]. rewrite El.
  split; [reflexivity|]. split; [reflexivity|].
  split; [|split; [intros shown_now; reflexivity|]].
  - intros n Hnone Hin. apply filter_In in Hin. destruct Hin as (_ & Hh).
    apply has_In, visible_In in Hh. destruct Hh as (l & Hl & Ht).
    exact (Hnone l Hl Ht).
  - cbn. unfold Graph.filter_graph. now rewrite El.
Qed.

(** ** The dashboard's requests *)

Section DashboardFacts.

Lemma or_else_truthy (v : jsprop) (lit : string) :
  lit <> EmptyString -> truthy (Some (or_else v lit)) = true.
Proof.
  intros Hlit. unfold or_else. destruct v as [x|].
  - destruct (truthy (Some x)) eqn:E; [exact E|].
    cbn. destruct (String.eqb_spec lit EmptyString); [contradiction | reflexivity].
  - cbn. destruct (String.eqb_spec lit EmptyString); [contradiction | reflexivity].
Qed.


End DashboardFacts.

(** Without [datasetStats] the training handler sends nothing, leaves
    every cell but [error] as it was (the loading flag included) and sets
    the error to its hint; with [datasetStats] it sends exactly one
    request. *)
Lemma train_needs_dataset (s : Dashboard.state) :
  (falsy (Dashboard.datasetStats s) = true ->
   Dashboard.handleTrainModel_start s
   = (Dashboard.setError (JStr "Please generate a dataset first.") s, []) /\
   Dashboard.isLoadingModel (fst (Dashboard.handleTrainModel_start s))
   = Dashboard.isLoadingModel s) /\
  (falsy (Dashboard.datasetStats s) = false ->
   snd (Dashboard.handleTrainModel_start s) = [Dashboard.Post "/train_gnn"] /\
   Dashboard.isLoadingModel (fst (Dashboard.handleTrainModel_start s)) = true /\
   Dashboard.error (fst (Dashboard.handleTrainModel_start s)) = JNull) /\
  (snd (Dashboard.handleTrainModel_start s) <> [] <->
   falsy (Dashboard.datasetStats s) = false) /\
  snd (Dashboard.handleTrainModel_start Dashboard.initial) = [].
Proof.
  unfold Dashboard.handleTrainModel_start.
  destruct (falsy (Dashboard.datasetStats s)) eqn:E; cbn;
    repeat split; try discriminate; try reflexivity; try congruence.
Qed.

(** X9. No training before data: whatever is clicked and however the
    requests settle, in whatever order, as long as no generation has
    succeeded with a truthy answer the dashboard never sends a training
    request, and [datasetStats] stays falsy. *)
Theorem no_training_before_data (s : Dashboard.state)
    (acts : list Dashboard.action)
    (Hstart : falsy (Dashboard.datasetStats s) = true)
    (Hnone : forall data,
       In (Dashboard.GenerateSettled (Dashboard.Resolved data)) acts ->
       falsy data = true) :
  ~ In (Dashboard.Post "/train_gnn") (snd (Dashboard.play s acts)) /\
  falsy (Dashboard.datasetStats (fst (Dashboard.play s acts))) = true.
Proof.
  revert s Hstart. induction acts as [|a acts IH]; intros s Hstart.
  { cbn. split; [tauto | exact Hstart]. }
  cbn [Dashboard.play].
  destruct (Dashboard.act s a) as [s1 fx] eqn:Ea.
  destruct (Dashboard.play s1 acts) as [s2 fx'] eqn:Ep.
  assert (Hs1 : falsy (Dashboard.datasetStats s1) = true /\
                ~ In (Dashboard.Post "/train_gnn") fx).
  { destruct a as [|o| |o| |o]; cbn in Ea.
    - injection Ea as <- <-. split; [exact Hstart|].
      intros [H|[]]; discriminate.
    - destruct o as [data|err]; injection Ea as <- <-; cbn.
      + split; [apply Hnone; now left | tauto].
      + split; [exact Hstart|]. intros [H|[]]; discriminate.
    - unfold Dashboard.handleTrainModel_start in Ea. rewrite Hstart in Ea.
      injection Ea as <- <-. split; [exact Hstart | cbn; tauto].
    - destruct o as [data|err]; injection Ea as <- <-; cbn.
      + split; [exact Hstart | tauto].
      + split; [exact Hstart|]. intros [H|[]]; discriminate.
    - injection Ea as <- <-. split; [exact Hstart|].
      intros [H|[]]; discriminate.
    - destruct o as [data|err]; injection Ea as <- <-; cbn.
      + split; [exact Hstart | tauto].
      + split; [exact Hstart|]. intros [H|[]]; discriminate. }
  destruct Hs1 as (Hs1 & Hfx).
  assert (Hnone' : forall data,
             In (Dashboard.GenerateSettled (Dashboard.Resolved data)) acts ->
             falsy data = true)
    by (intros data H; apply Hnone; now right).
  specialize (IH Hnone' s1 Hs1). rewrite Ep in IH. cbn [fst snd] in *.
  destruct IH as (IH1 & IH2). split; [|exact IH2].
  intros H. apply in_app_or in H. tauto.
Qed.

Section DashboardTraces.

Implicit Types (s : Dashboard.state) (a : Dashboard.action)
  (acts : list Dashboard.action) (o : Dashboard.outcome).

Lemma play_cons s a acts :
  fst (Dashboard.play s (a :: acts))
  = fst (Dashboard.play (fst (Dashboard.act s a)) acts).
Proof.
  cbn [Dashboard.play]. destruct (Dashboard.act s a) as [s1 fx].
  cbn [fst]. now destruct (Dashboard.play s1 acts).
Qed.

Lemma play_last s acts a :
  fst (Dashboard.play s (acts ++ [a]))
  = fst (Dashboard.act (fst (Dashboard.play s acts)) a).
Proof.
  revert s. induction acts as [|b acts IH]; intros s.
  - cbn [app]. rewrite play_cons. reflexivity.
  - cbn [app]. rewrite !play_cons. apply IH.
Qed.

Lemma train_start_cases s :
  (falsy (Dashboard.datasetStats s) = true /\
   Dashboard.handleTrainModel_start s
   = (Dashboard.setError (JStr "Please generate a dataset first.") s, [])) \/
  (falsy (Dashboard.datasetStats s) = false /\
   Dashboard.handleTrainModel_start s
   = (Dashboard.setError JNull (Dashboard.setIsLoadingModel true s),
      [Dashboard.Post "/train_gnn"])).
Proof.
  unfold Dashboard.handleTrainModel_start.
  destruct (falsy (Dashboard.datasetStats s)); [now left | now right].
Qed.

Lemma play_keeps_metrics_null acts : forall s,
  forallb (fun a => negb (Dashboard.answers_training a)) acts = true ->
  Dashboard.modelMetrics s = JNull ->
  Dashboard.modelMetrics (fst (Dashboard.play s acts)) = JNull.
Proof.
  induction acts as [|a acts IH]; intros s Hq Hs; [exact Hs|].
  cbn [forallb] in Hq. apply andb_true_iff in Hq. destruct Hq as (Ha & Hq).
  rewrite play_cons. apply IH; [exact Hq|].
  destruct a as [|[d|e]| |[d|e]| |[d|e]]; cbn in Ha |- *;
    try discriminate; try exact Hs; try reflexivity.
  destruct (train_start_cases s) as [(_ & ->)|(_ & ->)]; exact Hs.
Qed.

Lemma play_keeps_dataset_null acts : forall s,
  forallb (fun a => negb (Dashboard.answers_view a)) acts = true ->
  Dashboard.dataset s = JNull ->
  Dashboard.dataset (fst (Dashboard.play s acts)) = JNull.
Proof.
  induction acts as [|a acts IH]; intros s Hq Hs; [exact Hs|].
  cbn [forallb] in Hq. apply andb_true_iff in Hq. destruct Hq as (Ha & Hq).
  rewrite play_cons. apply IH; [exact Hq|].
  destruct a as [|[d|e]| |[d|e]| |[d|e]]; cbn in Ha |- *;
    try discriminate; try exact Hs; try reflexivity.
  destruct (train_start_cases s) as [(_ & ->)|(_ & ->)]; exact Hs.
Qed.


End DashboardTraces.

(** X8. Once a dashboard request has settled, whatever its outcome and
    whatever the state by then (so whatever was clicked or has settled in
    between), its handler's loading flag is off and the two other loading
    flags are as they were. The generate button can then be clicked; the
    train and the view button can be clicked exactly when [datasetStats]
    is truthy at that moment, so that a generation which has meanwhile
    answered a falsy value leaves them disabled. A button is disabled
    right after its own click (the train button when the request was
    sent). *)
Theorem loading_flags_settle (o : Dashboard.outcome) (s : Dashboard.state)
    (acts : list Dashboard.action) :
  let g := fst (Dashboard.handleGenerateData_settle o s) in
  let m := fst (Dashboard.handleTrainModel_settle o s) in
  let v := fst (Dashboard.handleViewData_settle o s) in
  (Dashboard.isLoadingData g = false /\
   Dashboard.isLoadingModel g = Dashboard.isLoadingModel s /\
   Dashboard.isLoadingViewData g = Dashboard.isLoadingViewData s) /\
  (Dashboard.isLoadingModel m = false /\
   Dashboard.isLoadingData m = Dashboard.isLoadingData s /\
   Dashboard.isLoadingViewData m = Dashboard.isLoadingViewData s) /\
  (Dashboard.isLoadingViewData v = false /\
   Dashboard.isLoadingData v = Dashboard.isLoadingData s /\
   Dashboard.isLoadingModel v = Dashboard.isLoadingModel s) /\
  (Dashboard.generate_enabled g = true /\
   Dashboard.train_enabled m = negb (falsy (Dashboard.datasetStats m)) /\
   Dashboard.datasetStats m = Dashboard.datasetStats s /\
   Dashboard.view_enabled v = negb (falsy (Dashboard.datasetStats v)) /\
   Dashboard.datasetStats v = Dashboard.datasetStats s) /\
  (Dashboard.generate_enabled (fst (Dashboard.handleGenerateData_start s)) = false /\
   Dashboard.view_enabled (fst (Dashboard.handleViewData_start s)) = false /\
   (falsy (Dashboard.datasetStats s) = false ->
    Dashboard.train_enabled (fst (Dashboard.handleTrainModel_start s)) = false)) /\
  (let g' := fst (Dashboard.play s (acts ++ [Dashboard.GenerateSettled o])) in
   let m' := fst (Dashboard.play s (acts ++ [Dashboard.TrainSettled o])) in
   let v' := fst (Dashboard.play s (acts ++ [Dashboard.ViewSettled o])) in
   (Dashboard.isLoadingData g' = false /\ Dashboard.generate_enabled g' = true) /\
   (Dashboard.isLoadingModel m' = false /\
    Dashboard.train_enabled m' = negb (falsy (Dashboard.datasetStats m'))) /\
   (Dashboard.isLoadingViewData v' = false /\
    Dashboard.view_enabled v' = negb (falsy (Dashboard.datasetStats v')))).
Proof.
  assert (Hg : forall s0,
             Dashboard.isLoadingData
               (fst (Dashboard.handleGenerateData_settle o s0)) = false)
    by (intros s0; now destruct o).
  assert (Hm : forall s0,
             Dashboard.isLoadingModel
               (fst (Dashboard.handleTrainModel_settle o s0)) = false)
    by (intros s0; now destruct o).
  assert (Hv : forall s0,
             Dashboard.isLoadingViewData
               (fst (Dashboard.handleViewData_settle o s0)) = false)
    by (intros s0; now destruct o).
  cbv zeta.
  split; [destruct o; now cbn|]. split; [destruct o; now cbn|].
  split; [destruct o; now cbn|].
  split; [|split].
  - unfold Dashboard.generate_enabled, Dashboard.train_enabled,
      Dashboard.view_enabled.
    rewrite Hg, Hm, Hv. cbn [negb orb]. rewrite orb_false_r.
    destruct o; now cbn.
  - split; [reflexivity|]. split.
    + unfold Dashboard.view_enabled. cbn. now rewrite orb_true_r.
    + intros Hd. unfold Dashboard.handleTrainModel_start. rewrite Hd.
      reflexivity.
  - rewrite !play_last. cbn [Dashboard.act].
    unfold Dashboard.generate_enabled, Dashboard.train_enabled,
      Dashboard.view_enabled.
    rewrite Hg, Hm, Hv. cbn [negb orb]. rewrite orb_false_r.
    now repeat split.
Qed.

(** X10. Clicking generate discards the model at once: [modelMetrics] and
    [dataset] become [null], so the graph, monitor and diagnostics buttons
    are disabled and the dataset modal is not shown, and [error] is
    cleared. The settling of the generation touches neither cell, so they
    are still [null] afterwards provided no training request (for
    [modelMetrics]) and no view request (for [dataset]) has settled with
    an answer in between, whatever else happened; an answer to an earlier
    training that settles after the click is stored all the same and
    enables the buttons again when truthy. A failed generation keeps the
    [datasetStats] of that moment and sets the fixed message; a success
    replaces them and raises the toast, leaving [error] as it is. *)
Theorem regenerate_discards_model (o : Dashboard.outcome) (s : Dashboard.state)
    (acts : list Dashboard.action) :
  let s1 := fst (Dashboard.handleGenerateData_start s) in
  let s2 := fst (Dashboard.play s1 (acts ++ [Dashboard.GenerateSettled o])) in
  let settled := fst (Dashboard.handleGenerateData_settle o s) in
  (Dashboard.modelMetrics s1 = JNull /\ Dashboard.dataset s1 = JNull /\
   Dashboard.modals_enabled s1 = false /\
   Dashboard.dataset_modal_shown s1 = false /\
   Dashboard.error s1 = JNull) /\
  (forallb (fun a => negb (Dashboard.answers_training a)) acts = true ->
   Dashboard.modelMetrics s2 = JNull /\ Dashboard.modals_enabled s2 = false) /\
  (forallb (fun a => negb (Dashboard.answers_view a)) acts = true ->
   Dashboard.dataset s2 = JNull /\ Dashboard.dataset_modal_shown s2 = false) /\
  (forall metrics,
     Dashboard.modals_enabled
       (fst (Dashboard.play s
               [Dashboard.Generate;
                Dashboard.TrainSettled (Dashboard.Resolved metrics);
                Dashboard.GenerateSettled o]))
     = negb (falsy metrics)) /\
  (Dashboard.modelMetrics settled = Dashboard.modelMetrics s /\
   Dashboard.dataset settled = Dashboard.dataset s) /\
  match o with
  | Dashboard.Rejected _ =>
      Dashboard.datasetStats settled = Dashboard.datasetStats s /\
      Dashboard.error settled
      = JStr "Failed to generate dataset. Is the backend running?" /\
      Dashboard.showToast settled = Dashboard.showToast s
  | Dashboard.Resolved data =>
      Dashboard.datasetStats settled = data /\
      Dashboard.error settled = Dashboard.error s /\
      Dashboard.showToast settled = true
  end.
Proof.
  cbv zeta.
  assert (Hframe : forall s0,
             Dashboard.modelMetrics
               (fst (Dashboard.handleGenerateData_settle o s0))
             = Dashboard.modelMetrics s0 /\
             Dashboard.dataset (fst (Dashboard.handleGenerateData_settle o s0))
             = Dashboard.dataset s0)
    by (intros s0; destruct o; now cbn).
  split; [unfold Dashboard.dataset_modal_shown; cbn; rewrite ?andb_false_r;
          now repeat split|].
  split; [|split; [|split; [|split]]].
  - intros Hq. rewrite play_last. cbn [Dashboard.act].
    unfold Dashboard.modals_enabled.
    rewrite (proj1 (Hframe _)).
    rewrite (play_keeps_metrics_null acts
               (fst (Dashboard.handleGenerateData_start s)) Hq eq_refl).
    now split.
  - intros Hq. rewrite play_last. cbn [Dashboard.act].
    unfold Dashboard.dataset_modal_shown.
    rewrite (proj2 (Hframe _)).
    rewrite (play_keeps_dataset_null acts
               (fst (Dashboard.handleGenerateData_start s)) Hq eq_refl).
    split; [reflexivity | apply andb_false_r].
  - intros metrics. rewrite !play_cons. cbn [Dashboard.play fst Dashboard.act].
    unfold Dashboard.modals_enabled. rewrite (proj1 (Hframe _)).
    reflexivity.
  - apply Hframe.
  - destruct o; now cbn.
Qed.


(** ** Signing in and out *)

Section AuthFacts.

Implicit Types (s : Auth.login) (st : Auth.storage) (data : jsval).

Lemma jsval_is_null data : data = JNull \/ data <> JNull.
Proof. destruct data; [now left | right; discriminate ..]. Qed.

Lemma settle_no_answer s st :
  Auth.handleSubmit_settle Auth.NoAnswer s st
  = (Auth.setIsLoading false (Auth.setError (JStr "Connection error. Please try again.") s), st, []).
Proof. reflexivity. Qed.

Lemma settle_unparsable ok s st :
  Auth.handleSubmit_settle (Auth.Answer ok Unparsable) s st
  = (Auth.setIsLoading false (Auth.setError (JStr "Connection error. Please try again.") s), st, []).
Proof. reflexivity. Qed.

Lemma settle_null ok s st :
  Auth.handleSubmit_settle (Auth.Answer ok (Parsed JNull)) s st
  = (Auth.setIsLoading false (Auth.setError (JStr "Connection error. Please try again.") s), st, []).
Proof. now destruct ok. Qed.

Lemma settle_ok data s st :
  data <> JNull ->
  Auth.handleSubmit_settle (Auth.Answer true (Parsed data)) s st
  = (Auth.setIsLoading false s,
     Auth.setItem_user_stringified (prop data "user")
       (Auth.setItem_token (prop data "token") st),
     [Auth.Push "/"]).
Proof.
  intros H. unfold Auth.handleSubmit_settle, Auth.handleSubmit_try.
  cbn [JSON_parse bind]. now rewrite (member_not_null _ _ H).
Qed.

Lemma settle_refused data s st :
  data <> JNull ->
  Auth.handleSubmit_settle (Auth.Answer false (Parsed data)) s st
  = (Auth.setIsLoading false
       (Auth.setError (or_else (prop data "detail") "Invalid credentials") s),
     st, []).
Proof.
  intros H. unfold Auth.handleSubmit_settle, Auth.handleSubmit_try.
  cbn [JSON_parse bind]. now rewrite (member_not_null _ _ H).
Qed.

Lemma strict_eq_str_reparse (v : jsval) (lit : string) :
  strict_eq_str (Some (reparse v)) lit = strict_eq_str (Some v) lit.
Proof. destruct v as [| | [q|b] | | |]; reflexivity. Qed.

Lemma lookup_reparse k lit (props : list (string * jsval)) :
  strict_eq_str (lookup k (map (fun kv => (fst kv, reparse (snd kv))) props)) lit
  = strict_eq_str (lookup k props) lit.
Proof.
  induction props as [|[k' v] props IH]; [reflexivity|].
  cbn [map lookup fst snd]. destruct (String.eqb k' k); [|exact IH].
  apply strict_eq_str_reparse.
Qed.

Lemma prop_reparse (v : jsval) k lit :
  strict_eq_str (prop (reparse v) k) lit = strict_eq_str (prop v k) lit.
Proof.
  destruct v as [| | [q|b] | | |props]; try reflexivity.
  cbn [reparse prop]. apply lookup_reparse.
Qed.

End AuthFacts.

(** X12. How a sign-in ends. The form always stops loading. It navigates
    to the dashboard exactly when the answer's status is ok and its body
    parses to something other than [null]; then token and user are
    written and the error is left alone. In every other case (no answer, a
    body that is not JSON or is [null], a refusal) nothing is written, no
    navigation happens and an error message is set: the backend's
    [detail] for a refusal that carries one, a fixed text otherwise. *)
Theorem sign_in_outcomes (r : Auth.fetched) (s : Auth.login) (st : Auth.storage) :
  let res := Auth.handleSubmit_settle r s st in
  let s' := fst (fst res) in
  let st' := snd (fst res) in
  let nav := snd res in
  Auth.isLoading s' = false /\
  (nav = [Auth.Push "/"] \/ nav = []) /\
  (nav = [Auth.Push "/"] <->
   exists data, r = Auth.Answer true (Parsed data) /\ data <> JNull) /\
  (nav = [Auth.Push "/"] ->
   Auth.error s' = Auth.error s /\
   exists b t, Auth.token st' = Some b /\ Auth.user st' = Some (Auth.NonEmpty t)) /\
  (nav = [] -> st' = st /\ truthy (Some (Auth.error s')) = true) /\
  (forall data, data <> JNull -> r = Auth.Answer false (Parsed data) ->
     Auth.error s' = or_else (prop data "detail") "Invalid credentials").
Proof.
  cbv zeta.
  destruct r as [|ok [|data]];
    [rewrite settle_no_answer | rewrite settle_unparsable | ].
  1,2: cbn; repeat split; try discriminate; try (now right);
       try (intros (d & H & _); discriminate); intros; discriminate.
  destruct (jsval_is_null data) as [->|Hn].
  - rewrite settle_null. cbn.
    repeat split; try discriminate; try (now right).
    + intros (d & [= _ <-] & H). now contradiction H.
    + intros d Hd [= _ <-]. now contradiction Hd.
  - destruct ok.
    + rewrite (settle_ok _ _ _ Hn). cbn.
      repeat split; try discriminate; try (now left).
      * intros _. now exists data.
      * eexists _, _. split; reflexivity.
    + rewrite (settle_refused _ _ _ Hn). cbn.
      repeat split; try discriminate; try (now right).
      * intros (d & H & _). discriminate.
      * apply or_else_truthy. discriminate.
      * intros d _ [= <-]. reflexivity.
Qed.

(** X13. The Enter key submits exactly when both fields are filled in,
    whether or not a sign-in is already under way: it agrees with the
    button when the button can be clicked, but while the form is loading
    the button is disabled and Enter still sends another request. Any
    other key, or an empty field, changes nothing. *)
Theorem enter_submits_while_loading (key : string) (s : Auth.login) :
  (snd (Auth.handleKeyPress key s) <> [] <->
   key = "Enter" /\ Auth.email s <> EmptyString /\
   Auth.password s <> EmptyString) /\
  (snd (Auth.handleKeyPress key s) = [] -> Auth.handleKeyPress key s = (s, [])) /\
  (Auth.submit_enabled s = true ->
   Auth.handleKeyPress "Enter" s = Auth.handleSubmit_start s) /\
  (Auth.isLoading s = true -> Auth.email s <> EmptyString ->
   Auth.password s <> EmptyString ->
   Auth.submit_enabled s = false /\
   snd (Auth.handleKeyPress "Enter" s)
   = [Auth.LoginRequest (Auth.email s) (Auth.password s)]).
Proof.
  assert (Hne : forall str, Auth.nonempty str = true <-> str <> EmptyString).
  { intros str. unfold Auth.nonempty.
    destruct (String.eqb_spec str EmptyString); cbn; split; congruence. }
  assert (Hkey : forall k, String.eqb k "Enter" = true <-> k = "Enter")
    by (intros k; apply String.eqb_eq).
  unfold Auth.handleKeyPress, Auth.submit_enabled.
  split; [|split; [|split]].
  - destruct (String.eqb key "Enter" && Auth.nonempty (Auth.email s)
              && Auth.nonempty (Auth.password s)) eqn:E.
    + apply andb_true_iff in E. destruct E as (E & Hp).
      apply andb_true_iff in E. destruct E as (Hk & He).
      split; [intros _|intros _; discriminate].
      split; [now apply Hkey|]. split; now apply Hne.
    + split; [intros H; now contradiction H|].
      intros (Hk & He & Hp).
      apply Hkey in Hk. apply Hne in He, Hp. rewrite Hk, He, Hp in E.
      discriminate.
  - destruct (String.eqb key "Enter" && Auth.nonempty (Auth.email s)
              && Auth.nonempty (Auth.password s)); [discriminate | reflexivity].
  - intros H. apply negb_true_iff in H.
    apply orb_false_iff in H. destruct H as (H & Hp).
    apply orb_false_iff in H. destruct H as (_ & He).
    apply negb_false_iff in He, Hp. now rewrite He, Hp.
  - intros Hl He Hp. apply Hne in He, Hp. rewrite Hl, He, Hp. now cbn.
Qed.

(** X14. What the login page does with what a sign-in has stored (the
    token's text being non-empty). With a [user] in the answer that is
    written back as something other than [null], the page goes to the
    dashboard exactly when [user.role === 'admin'] and keeps the storage.
    With no [user] in the answer, or one written as [null], the stored
    text is not an object, the page's [catch] runs and the storage is
    cleared, token included. *)
Theorem page_after_sign_in (data : jsval) (s : Auth.login) (st : Auth.storage)
    (Hdata : data <> JNull)
    (Htoken : forall v, prop data "token" = Some v -> to_string_empty v = false) :
  let res := Auth.handleSubmit_settle (Auth.Answer true (Parsed data)) s st in
  let st' := snd (fst res) in
  Auth.token st' = Some true /\
  (forall u, prop data "user" = Some u -> reparse u <> JNull ->
     Auth.LoginPage_effect st'
     = (st', if strict_eq_str (prop u "role") "admin"
             then [Auth.Replace "/"] else [])) /\
  (prop data "user" = None \/
   (exists u, prop data "user" = Some u /\ reparse u = JNull) ->
   Auth.LoginPage_effect st' = (Auth.empty, [])).
Proof.
  cbv zeta. rewrite (settle_ok _ _ _ Hdata). cbn [fst snd].
  assert (Htok : Auth.token
                   (Auth.setItem_user_stringified (prop data "user")
                      (Auth.setItem_token (prop data "token") st)) = Some true).
  { cbn. destruct (prop data "token") as [v|] eqn:E; [|reflexivity].
    now rewrite (Htoken v eq_refl). }
  split; [exact Htok|].
  unfold Auth.LoginPage_effect. rewrite Htok.
  cbn [Auth.item_truthy Auth.user Auth.setItem_user_stringified
       Auth.text_nonempty andb].
  split.
  - intros u -> Hu.
    cbn [Auth.JSON_parse_text JSON_parse bind].
    rewrite (member_not_null _ _ Hu). cbn [bind].
    rewrite prop_reparse.
    now destruct (strict_eq_str (prop u "role") "admin").
  - intros [-> | (u & -> & Hu)]; [reflexivity|].
    cbn [Auth.JSON_parse_text JSON_parse bind]. now rewrite Hu.
Qed.

(** X15. The login page on any storage: it goes to the dashboard exactly
    when a non-empty token is stored and the stored user parses to a value
    whose [role] is ["admin"]; it either keeps the storage or clears it,
    and clears it only when, with a non-empty token, the stored user text
    is not JSON or is [null]. After a confirmed logout both entries are
    gone and the page neither redirects nor clears; a logout that is not
    confirmed does nothing. *)
Theorem login_page_redirects_admins (st : Auth.storage) :
  let res := Auth.LoginPage_effect st in
  (snd res = [Auth.Replace "/"] <->
   Auth.token st = Some true /\
   exists u, Auth.user st = Some (Auth.NonEmpty (Parsed u)) /\
             strict_eq_str (prop u "role") "admin" = true) /\
  (snd res = [Auth.Replace "/"] \/ snd res = []) /\
  (fst res = st \/ fst res = Auth.empty) /\
  (fst res <> st ->
   Auth.token st = Some true /\
   (Auth.user st = Some (Auth.NonEmpty Unparsable) \/
    Auth.user st = Some (Auth.NonEmpty (Parsed JNull)))) /\
  (let out := Auth.handleLogout true st in
   fst out = Auth.empty /\ snd out = [Auth.Push "/login1"] /\
   Auth.LoginPage_effect (fst out) = (Auth.empty, [])) /\
  Auth.handleLogout false st = (st, []).
Proof.
  cbv zeta. destruct st as [tok usr].
  split; [|split; [|split; [|split; [|split; [now repeat split | reflexivity]]]]].
  - destruct tok as [[|]|]; destruct usr as [[|[|u]]|]; cbn;
      try (split; [discriminate | intros (H & _); discriminate]);
      try (split; [discriminate | intros (_ & x & H & _); discriminate]).
    destruct (jsval_is_null u) as [->|Hu].
    + cbn. split; [discriminate|]. intros (_ & x & [= <-] & H). discriminate.
    + rewrite (member_not_null _ _ Hu). cbn [bind].
      destruct (strict_eq_str (prop u "role") "admin") eqn:E; cbn.
      * split; [intros _|reflexivity]. split; [reflexivity|]. now exists u.
      * split; [discriminate|]. intros (_ & x & [= <-] & H). congruence.
  - destruct tok as [[|]|]; destruct usr as [[|[|u]]|]; cbn; auto.
    destruct (jsval_is_null u) as [->|Hu]; [cbn; auto|].
    rewrite (member_not_null _ _ Hu). cbn [bind].
    destruct (strict_eq_str (prop u "role") "admin"); cbn; auto.
  - destruct tok as [[|]|]; destruct usr as [[|[|u]]|]; cbn; auto.
    destruct (jsval_is_null u) as [->|Hu]; [cbn; auto|].
    rewrite (member_not_null _ _ Hu). cbn [bind].
    destruct (strict_eq_str (prop u "role") "admin"); cbn; auto.
  - destruct tok as [[|]|]; destruct usr as [[|[|u]]|]; cbn;
      try (intros H; now contradiction H); auto.
    destruct (jsval_is_null u) as [->|Hu]; [cbn; auto|].
    rewrite (member_not_null _ _ Hu). cbn [bind].
    destruct (strict_eq_str (prop u "role") "admin"); cbn;
      intros H; now contradiction H.
Qed.

(** ** Concrete instances *)

Lemma only_transactions_count_witness :
  ws (connected true) = OPEN /\
  run (connected true) (map EvMessage mixed_frames)
  = feed (connected true) [evA; evB] /\
  Stats.total (stats (run (connected true) (map EvMessage mixed_frames)))
  = 0 + 2.
Proof.
  split; [reflexivity|].
  exact (only_transactions_count (connected true) mixed_frames eq_refl).
Defined.

Lemma slider_is_monotone_witness :
  (20 # 1 <= 100 # 1)%Q /\
  Graph.filter_graph (Graph.filter_graph small_graph (100 # 1)) (20 # 1)
  = Graph.filter_graph small_graph (20 # 1) /\
  incl (Graph.nodes (Graph.filter_graph small_graph (20 # 1)))
       (Graph.nodes (Graph.filter_graph small_graph (100 # 1))).
Proof.
  assert (H : (20 # 1 <= 100 # 1)%Q) by (apply Qle_bool_iff; reflexivity).
  split; [exact H|].
  destruct (slider_is_monotone small_graph (20 # 1) (100 # 1) H)
    as (E & _ & Hn).
  split; [exact E | exact Hn].
Defined.

Lemma slider_at_the_end_witness :
  (forall l, In l (Graph.links small_graph) ->
     (Graph.time_or_0 l <= 100 # 1)%Q) /\
  Graph.links (Graph.filter_graph small_graph (100 # 1))
  = Graph.links small_graph /\
  ~ In node3 (Graph.nodes (Graph.filter_graph small_graph (100 # 1))).
Proof.
  assert (H : forall l, In l (Graph.links small_graph) ->
                (Graph.time_or_0 l <= 100 # 1)%Q).
  { intros l [<-|[<-|[<-|[]]]]; apply Qle_bool_iff; reflexivity. }
  split; [exact H|].
  destruct (slider_at_the_end small_graph (100 # 1) H) as (El & _ & Hn & _).
  split; [exact El|]. apply Hn.
  intros l [<-|[<-|[<-|[]]]] [E|E]; discriminate E.
Defined.

Lemma page_after_sign_in_witness :
  admin_answer <> JNull /\
  (forall v, prop admin_answer "token" = Some v -> to_string_empty v = false) /\
  let st' := snd (fst (Auth.handleSubmit_settle
                         (Auth.Answer true (Parsed admin_answer))
                         Auth.initial Auth.empty)) in
  Auth.LoginPage_effect st' = (st', [Auth.Replace "/"]).
Proof.
  assert (Hn : admin_answer <> JNull) by discriminate.
  assert (Ht : forall v, prop admin_answer "token" = Some v ->
                 to_string_empty v = false)
    by (intros v [= <-]; reflexivity).
  split; [exact Hn|]. split; [exact Ht|].
  destruct (page_after_sign_in admin_answer Auth.initial Auth.empty Hn Ht)
    as (_ & Hu & _).
  apply (Hu (JObj [("role", JStr "admin")])); [reflexivity | discriminate].
Defined.

(** An answer without a user, a user that is [null], and a role that is
    not ["admin"]. *)
Example sign_in_then_page :
  (let st' := snd (fst (Auth.handleSubmit_settle
                          (Auth.Answer true (Parsed (JObj [("token", JStr "abc")])))
                          Auth.initial Auth.empty)) in
   Auth.token st' = Some true /\
   Auth.LoginPage_effect st' = (Auth.empty, [])) /\
  (let st' := snd (fst (Auth.handleSubmit_settle
                          (Auth.Answer true
                             (Parsed (JObj [("token", JStr "abc");
                                            ("user", JObj [("role", JStr "analyst")])])))
                          Auth.initial Auth.empty)) in
   Auth.LoginPage_effect st' = (st', [])).
Proof. now vm_compute. Qed.

(** The slider on the small graph: at day 20 the link of day 60 and, with
    it, nothing of node 2 is lost (the undated link keeps it), node 3 is
    never shown. *)
Example small_graph_day20 :
  Graph.filter_graph small_graph (20 # 1)
  = Graph.mkGraph [node1; node2] [link_day10; link_undated] /\
  Graph.filter_graph small_graph (100 # 1)
  = Graph.mkGraph [node1; node2] [link_day10; link_day60; link_undated].
Proof. now vm_compute. Qed.

Lemma no_training_before_data_witness :
  falsy (Dashboard.datasetStats Dashboard.initial) = true /\
  ~ In (Dashboard.Post "/train_gnn")
       (snd (Dashboard.play Dashboard.initial fruitless)).
Proof.
  split; [reflexivity|].
  refine (proj1 (no_training_before_data Dashboard.initial fruitless eq_refl _)).
  intros data H. unfold fruitless in H. cbn in H.
  repeat (destruct H as [H|H]; [discriminate H|]). destruct H.
Defined.

Lemma loading_flags_settle_witness :
  let acts := [Dashboard.Generate; Dashboard.Train;
               Dashboard.GenerateSettled (Dashboard.Resolved (JStr EmptyString))] in
  let m' := fst (Dashboard.play with_stats
                   (acts ++ [Dashboard.TrainSettled (Dashboard.Resolved (JObj []))])) in
  Dashboard.isLoadingModel m' = false /\ Dashboard.train_enabled m' = false.
Proof.
  intros acts m'.
  destruct (loading_flags_settle (Dashboard.Resolved (JObj [])) with_stats acts)
    as (_ & _ & _ & _ & _ & _ & (Hl & He) & _).
  split; [exact Hl | exact He].
Defined.

Lemma regenerate_discards_model_witness :
  let quiet := [Dashboard.View; Dashboard.Train;
                Dashboard.TrainSettled (Dashboard.Rejected busy)] in
  forallb (fun a => negb (Dashboard.answers_training a)) quiet = true /\
  Dashboard.modals_enabled
    (fst (Dashboard.play (fst (Dashboard.handleGenerateData_start with_stats))
            (quiet ++ [Dashboard.GenerateSettled (Dashboard.Rejected busy)])))
  = false /\
  Dashboard.modals_enabled
    (fst (Dashboard.play with_stats
            [Dashboard.Generate;
             Dashboard.TrainSettled (Dashboard.Resolved (JObj []));
             Dashboard.GenerateSettled (Dashboard.Rejected busy)]))
  = true.
Proof.
  intros quiet. split; [reflexivity|].
  destruct (regenerate_discards_model (Dashboard.Rejected busy) with_stats quiet)
    as (_ & Hm & _ & Hstale & _).
  split; [exact (proj2 (Hm eq_refl)) | exact (Hstale (JObj []))].
Defined.

